(** * The prompt-response pipeline of the teaching assistant

    A shallow embedding of [final_app.py] and [prompts.py]: grouping of
    feedback rows, truncation of texts to a character budget, rendering of
    the two prompt templates, the completion call, and the tolerant
    extraction of JSON from the model's answer.

    Python values are modelled as follows.
    - A [str] is a list of Unicode code points ([N]); slices, [strip],
      [startswith], [endswith] and [join] are written out on lists.
    - An exception is a value: fallible code returns an [outcome].
    - The completion service and the captioning service are external: they
      are operations on an abstract [World], threaded explicitly.
    - Streamlit calls only write to the page; they are recorded as a list of
      [ui_event]s next to the [World].
    - A Python dict is an association list in insertion order; the frame
      that [process_feedback] returns is the list of its row dicts. *)

From Stdlib Require Import String Ascii DecimalString.
From Stdlib Require Import List NArith ZArith Lia Bool.
From Stdlib Require Import Sorting.Sorted Sorting.Permutation.
Import ListNotations.

Set Implicit Arguments.

(** ** Python strings *)

Definition char := N.
Definition str := list char.

(** A literal of the source, given as an ASCII string. *)
Definition lit (s : string) : str :=
  map N_of_ascii (list_ascii_of_string s).

Fixpoint str_eqb (a b : str) : bool :=
  match a, b with
  | [], [] => true
  | x :: a', y :: b' => (x =? y)%N && str_eqb a' b'
  | _, _ => false
  end.

(** [str.isspace] on one code point: the characters [str.strip()] removes. *)
Definition is_space (c : char) : bool :=
  ((9 <=? c) && (c <=? 13) || (28 <=? c) && (c <=? 32)
   || (c =? 133) || (c =? 160) || (c =? 5760)
   || (8192 <=? c) && (c <=? 8202)
   || (c =? 8232) || (c =? 8233) || (c =? 8239) || (c =? 8287)
   || (c =? 12288))%N.

(** [s.lstrip()] *)
Fixpoint lstrip (s : str) : str :=
  match s with
  | c :: s' => if is_space c then lstrip s' else s
  | [] => []
  end.

(** [s.rstrip()] *)
Definition rstrip (s : str) : str := rev (lstrip (rev s)).

(** [s.strip()] *)
Definition strip (s : str) : str := rstrip (lstrip s).

(** [s.startswith(p)] *)
Fixpoint startswith (s p : str) {struct p} : bool :=
  match p, s with
  | [], _ => true
  | a :: p', b :: s' => (a =? b)%N && startswith s' p'
  | _ :: _, [] => false
  end.

(** [s.endswith(p)] *)
Definition endswith (s p : str) : bool := startswith (rev s) (rev p).

(** [s[:n]] for any integer [n]: a negative bound counts from the end. *)
Definition slice_to (s : str) (n : Z) : str :=
  if (0 <=? n)%Z then firstn (Z.to_nat n) s
  else firstn (length s - Z.to_nat (- n)) s.

(** [s[n:]] for a non-negative [n]. *)
Definition slice_from (s : str) (n : nat) : str := skipn n s.

(** [sep.join(parts)] *)
Fixpoint join (sep : str) (parts : list str) : str :=
  match parts with
  | [] => []
  | [p] => p
  | p :: rest => p ++ sep ++ join sep rest
  end.

(** [str(n)] for integers. *)
Definition str_of_Z (z : Z) : str :=
  lit (NilZero.string_of_int (Z.to_int z)).

Definition str_of_nat (n : nat) : str := str_of_Z (Z.of_nat n).

(** ** Exceptions and outcomes *)

(** An exception instance: its class and [str(e)]. *)
Record exn := Exn { exn_class : str; exn_message : str }.

Inductive outcome (A : Type) : Type :=
| Ok (a : A)
| Raise (e : exn).
Arguments Ok {A} a.
Arguments Raise {A} e.

Definition mk_exn (cls msg : str) : exn := {| exn_class := cls; exn_message := msg |}.

(** ** JSON values as Python objects

    What [json.loads] returns: [None], [bool], [int], [float], [str],
    [list] or [dict].  A float is kept as the text it was read from, so no
    floating-point arithmetic is involved.  A [dict] keeps its keys in
    insertion order, each key once. *)

#[local] Set Warnings "-register-all".
Inductive json : Type :=
| JNull
| JBool (b : bool)
| JInt (z : Z)
| JFloat (lexeme : str)
| JStr (s : str)
| JList (items : list json)
| JDict (d : list (str * json)).

Definition dict := list (str * json).

(** The value bound to [k] in a dict, when there is one. *)
Fixpoint dict_lookup (d : dict) (k : str) : option json :=
  match d with
  | [] => None
  | (k', v) :: d' => if str_eqb k' k then Some v else dict_lookup d' k
  end.

(** [d[k] = v]: an existing key keeps its place, a new key goes last. *)
Fixpoint dict_set (d : dict) (k : str) (v : json) : dict :=
  match d with
  | [] => [(k, v)]
  | (k', v') :: d' =>
      if str_eqb k' k then (k', v) :: d' else (k', v') :: dict_set d' k v
  end.

Definition dict_keys (d : dict) : list str := map fst d.

(** [type(v).__name__] *)
Definition type_name (v : json) : str :=
  match v with
  | JNull => lit "NoneType"
  | JBool _ => lit "bool"
  | JInt _ => lit "int"
  | JFloat _ => lit "float"
  | JStr _ => lit "str"
  | JList _ => lit "list"
  | JDict _ => lit "dict"
  end.

Definition AttributeError (v : json) (attr : str) : exn :=
  mk_exn (lit "AttributeError")
    (lit "'" ++ type_name v ++ lit "' object has no attribute '" ++ attr ++ lit "'").

(** [d.get(k)] on a dict: the value bound to [k], [None] when [k] is
    absent. *)
Definition dict_get (d : dict) (k : str) : json :=
  match dict_lookup d k with
  | Some x => x
  | None => JNull
  end.

(** [v.get(k)]: an object that is not a dict has no [get]. *)
Definition py_get (v : json) (k : str) : outcome json :=
  match v with
  | JDict d => Ok (dict_get d k)
  | _ => Raise (AttributeError v (lit "get"))
  end.

(** ** A reference decoder for [json.loads]

    The theorems below hold for any decoder; this one follows CPython's
    [json] module and is used to run the pipeline on concrete answers.
    Positions are indices into the document, as in [JSONDecodeError].
    Recursion is bounded by fuel: [loads] gives as much as the document is
    long, more than its nesting can use.  The recursion limit of the
    interpreter is not modelled. *)

Module Decoder.

Inductive scan (A : Type) : Type :=
| Done (v : A) (rest : str) (end_ : nat)
| StopIteration (idx : nat)
| DecodeError (msg : str) (pos : nat)
| Failure (e : exn).
Arguments Done {A} v rest end_.
Arguments StopIteration {A} idx.
Arguments DecodeError {A} msg pos.
Arguments Failure {A} e.

Definition is_ws (c : char) : bool :=
  ((c =? 32) || (c =? 9) || (c =? 10) || (c =? 13))%N.

Definition is_digit (c : char) : bool := ((48 <=? c) && (c <=? 57))%N.

Fixpoint skip_ws (s : str) (idx : nat) : str * nat :=
  match s with
  | c :: s' => if is_ws c then skip_ws s' (S idx) else (s, idx)
  | [] => ([], idx)
  end.

Definition hex_digit (c : char) : option N :=
  (if (48 <=? c) && (c <=? 57) then Some (c - 48)
   else if (97 <=? c) && (c <=? 102) then Some (c - 87)
   else if (65 <=? c) && (c <=? 70) then Some (c - 55)
   else None)%N.

Definition hex4 (a b c d : char) : option N :=
  match hex_digit a, hex_digit b, hex_digit c, hex_digit d with
  | Some x, Some y, Some z, Some w => Some (((x * 16 + y) * 16 + z) * 16 + w)%N
  | _, _, _, _ => None
  end.

Definition backslash (c : char) : option char :=
  (if c =? 34 then Some 34        (* quote *)
   else if c =? 92 then Some 92   (* backslash *)
   else if c =? 47 then Some 47   (* slash *)
   else if c =? 98 then Some 8    (* b: backspace *)
   else if c =? 102 then Some 12  (* f: form feed *)
   else if c =? 110 then Some 10  (* n: line feed *)
   else if c =? 114 then Some 13  (* r: carriage return *)
   else if c =? 116 then Some 9   (* t: tab *)
   else None)%N.

Definition high_surrogate (c : N) : bool := ((55296 <=? c) && (c <=? 56319))%N.
Definition low_surrogate (c : N) : bool := ((56320 <=? c) && (c <=? 57343))%N.
Definition join_surrogates (hi lo : N) : N :=
  (65536 + ((hi - 55296) * 1024 + (lo - 56320)))%N.

(** [scanstring(s, end)]: [s] is the text after the opening quote, which
    is at index [begin]; [acc] holds the decoded characters, last first. *)
Fixpoint scanstring (s : str) (end_ begin : nat) (acc : str) {struct s} : scan str :=
  match s with
  | [] => DecodeError (lit "Unterminated string starting at") begin
  | c :: s1 =>
      if (c =? 34)%N then Done (rev acc) s1 (S end_)
      else if (c =? 92)%N then
        match s1 with
        | [] => DecodeError (lit "Unterminated string starting at") begin
        | e :: s2 =>
            if (e =? 117)%N then
              match s2 with
              | h1 :: h2 :: h3 :: h4 :: ((_ :: _) as s3) =>
                  match hex4 h1 h2 h3 h4 with
                  | None => DecodeError (lit "Invalid \uXXXX escape") (S end_)
                  | Some uni =>
                      match s3 with
                      | b2 :: u2 :: g1 :: g2 :: g3 :: g4 :: ((_ :: _) as s4) =>
                          if high_surrogate uni && (b2 =? 92)%N && (u2 =? 117)%N then
                            match hex4 g1 g2 g3 g4 with
                            | None => DecodeError (lit "Invalid \uXXXX escape") (end_ + 7)
                            | Some uni2 =>
                                if low_surrogate uni2
                                then scanstring s4 (end_ + 12) begin (join_surrogates uni uni2 :: acc)
                                else scanstring s3 (end_ + 6) begin (uni :: acc)
                            end
                          else scanstring s3 (end_ + 6) begin (uni :: acc)
                      | _ => scanstring s3 (end_ + 6) begin (uni :: acc)
                      end
                  end
              | _ => DecodeError (lit "Invalid \uXXXX escape") (S end_)
              end
            else
              match backslash e with
              | Some ch => scanstring s2 (end_ + 2) begin (ch :: acc)
              | None => DecodeError (lit "Invalid \escape") end_
              end
        end
      else if (c <=? 31)%N then DecodeError (lit "Invalid control character at") end_
      else scanstring s1 (S end_) begin (c :: acc)
  end.

(** The digits at the head of [s], and what follows them. *)
Fixpoint span_digits (s : str) : str * str :=
  match s with
  | c :: s' =>
      if is_digit c then let (ds, r) := span_digits s' in (c :: ds, r) else ([], s)
  | [] => ([], [])
  end.

Definition Z_of_digits (ds : str) : Z :=
  fold_left (fun acc c => (acc * 10 + Z.of_N (c - 48))%Z) ds 0%Z.

(** The integer part of a number, an optional minus and then either a
    single 0 or a digit 1-9 followed by digits: sign, digits, rest. *)
Definition match_integer (s : str) : option (bool * str * str) :=
  let (neg, s0) :=
    match s with
    | c :: s' => if (c =? 45)%N then (true, s') else (false, s)
    | [] => (false, s)
    end in
  match s0 with
  | c :: s1 =>
      if (c =? 48)%N then Some (neg, [c], s1)
      else if is_digit c then
        let (ds, r) := span_digits s1 in Some (neg, c :: ds, r)
      else None
  | [] => None
  end.

(** The fraction, a dot followed by at least one digit, when present. *)
Definition match_frac (s : str) : str * str :=
  match s with
  | c :: s1 =>
      if (c =? 46)%N then
        match span_digits s1 with
        | ([], _) => ([], s)
        | (ds, r) => (c :: ds, r)
        end
      else ([], s)
  | [] => ([], s)
  end.

(** The exponent, e or E, an optional sign and at least one digit, when
    present. *)
Definition match_exp (s : str) : str * str :=
  match s with
  | c :: s1 =>
      if ((c =? 101) || (c =? 69))%N then
        let (sign, s2) :=
          match s1 with
          | g :: s2 => if ((g =? 45) || (g =? 43))%N then ([g], s2) else ([], s1)
          | [] => ([], s1)
          end in
        match span_digits s2 with
        | ([], _) => ([], s)
        | (ds, r) => (c :: sign ++ ds, r)
        end
      else ([], s)
  | [] => ([], s)
  end.

Definition max_str_digits : nat := 4300.

Definition int_too_long (n : nat) : exn :=
  mk_exn (lit "ValueError")
    (lit "Exceeds the limit (4300 digits) for integer string conversion: value has "
     ++ str_of_nat n
     ++ lit " digits; use sys.set_int_max_str_digits() to increase the limit").

Definition match_number (s : str) (idx : nat) : scan json :=
  match match_integer s with
  | None => StopIteration idx
  | Some (neg, ds, r0) =>
      let (frac, r1) := match_frac r0 in
      let (ex, r2) := match_exp r1 in
      let sign := if neg then [45%N] else [] in
      let lexeme := sign ++ ds ++ frac ++ ex in
      let end_ := idx + length lexeme in
      match frac, ex with
      | [], [] =>
          if length ds <=? max_str_digits
          then Done (JInt (if neg then - Z_of_digits ds else Z_of_digits ds)) r2 end_
          else Failure (int_too_long (length ds))
      | _, _ => Done (JFloat lexeme) r2 end_
      end
  end.

(** A constant such as [null]: it must be followed by nothing or anything,
    but be there in full. *)
Definition match_const (s : str) (idx : nat) (name : str) (v : json) : option (scan json) :=
  if startswith s name then Some (Done v (skipn (length name) s) (idx + length name))
  else None.

Definition RecursionError : exn :=
  mk_exn (lit "RecursionError")
    (lit "maximum recursion depth exceeded while decoding a JSON object from a unicode string").

(** The loop of [JSONObject], entered where a key is expected. *)
Fixpoint object_loop (scan_once : str -> nat -> scan json) (n : nat)
    (s : str) (idx : nat) (d : dict) : scan json :=
  match n with
  | O => Failure RecursionError
  | S n' =>
      match s with
      | 34%N :: s1 =>
          match scanstring s1 (S idx) idx [] with
          | Done key s2 i2 =>
              let (s3, i3) := skip_ws s2 i2 in
              match s3 with
              | 58%N :: s4 =>
                  let (s5, i5) := skip_ws s4 (S i3) in
                  match scan_once s5 i5 with
                  | Done v s6 i6 =>
                      let d' := dict_set d key v in
                      let (s7, i7) := skip_ws s6 i6 in
                      match s7 with
                      | 125%N :: s8 => Done (JDict d') s8 (S i7)
                      | 44%N :: s8 =>
                          let (s9, i9) := skip_ws s8 (S i7) in
                          object_loop scan_once n' s9 i9 d'
                      | _ => DecodeError (lit "Expecting ',' delimiter") i7
                      end
                  | StopIteration i => StopIteration i
                  | DecodeError m p => DecodeError m p
                  | Failure e => Failure e
                  end
              | _ => DecodeError (lit "Expecting ':' delimiter") i3
              end
          | StopIteration i => StopIteration i
          | DecodeError m p => DecodeError m p
          | Failure e => Failure e
          end
      | _ => DecodeError (lit "Expecting property name enclosed in double quotes") idx
      end
  end.

(** The loop of [JSONArray], entered where a value is expected. *)
Fixpoint array_loop (scan_once : str -> nat -> scan json) (n : nat)
    (s : str) (idx : nat) (acc : list json) : scan json :=
  match n with
  | O => Failure RecursionError
  | S n' =>
      match scan_once s idx with
      | Done v s1 i1 =>
          let (s2, i2) := skip_ws s1 i1 in
          match s2 with
          | 93%N :: s3 => Done (JList (rev (v :: acc))) s3 (S i2)
          | 44%N :: s3 =>
              let (s4, i4) := skip_ws s3 (S i2) in
              array_loop scan_once n' s4 i4 (v :: acc)
          | _ => DecodeError (lit "Expecting ',' delimiter") i2
          end
      | StopIteration i => StopIteration i
      | DecodeError m p => DecodeError m p
      | Failure e => Failure e
      end
  end.

(** [scan_once(string, idx)]; [s] is [string[idx:]]. *)
Fixpoint scan_once (fuel : nat) (s : str) (idx : nat) : scan json :=
  match fuel with
  | O => Failure RecursionError
  | S fuel' =>
      match s with
      | [] => StopIteration idx
      | c :: s1 =>
          if (c =? 34)%N then
            match scanstring s1 (S idx) idx [] with
            | Done v r e => Done (JStr v) r e
            | StopIteration i => StopIteration i
            | DecodeError m p => DecodeError m p
            | Failure e => Failure e
            end
          else if (c =? 123)%N then
            let (s2, i2) := skip_ws s1 (S idx) in
            match s2 with
            | 125%N :: s3 => Done (JDict []) s3 (S i2)
            | _ => object_loop (scan_once fuel') fuel' s2 i2 []
            end
          else if (c =? 91)%N then
            let (s2, i2) := skip_ws s1 (S idx) in
            match s2 with
            | 93%N :: s3 => Done (JList []) s3 (S i2)
            | _ => array_loop (scan_once fuel') fuel' s2 i2 []
            end
          else
            match match_const s idx (lit "null") JNull with
            | Some r => r
            | None =>
            match match_const s idx (lit "true") (JBool true) with
            | Some r => r
            | None =>
            match match_const s idx (lit "false") (JBool false) with
            | Some r => r
            | None =>
            match match_const s idx (lit "NaN") (JFloat (lit "NaN")) with
            | Some r => r
            | None =>
            match match_const s idx (lit "Infinity") (JFloat (lit "Infinity")) with
            | Some r => r
            | None =>
            match match_const s idx (lit "-Infinity") (JFloat (lit "-Infinity")) with
            | Some r => r
            | None => match_number s idx
            end end end end end end
      end
  end.

(** The message of a [JSONDecodeError(msg, doc, pos)]. *)
Definition newline : char := 10%N.

Definition lineno (doc : str) (pos : nat) : nat :=
  S (count_occ N.eq_dec (firstn pos doc) newline).

(** [pos - doc.rfind('\n', 0, pos)] *)
Fixpoint after_last_newline (s : str) (col : nat) : nat :=
  match s with
  | [] => col
  | c :: s' => after_last_newline s' (if (c =? newline)%N then 1 else S col)
  end.

Definition colno (doc : str) (pos : nat) : nat :=
  after_last_newline (firstn pos doc) 1.

Definition JSONDecodeError (msg doc : str) (pos : nat) : exn :=
  mk_exn (lit "JSONDecodeError")
    (msg ++ lit ": line " ++ str_of_nat (lineno doc pos)
         ++ lit " column " ++ str_of_nat (colno doc pos)
         ++ lit " (char " ++ str_of_nat pos ++ lit ")").

(** [json.loads(s)] for a [str] argument. *)
Definition loads (doc : str) : outcome json :=
  if startswith doc [65279%N] then
    Raise (JSONDecodeError (lit "Unexpected UTF-8 BOM (decode using utf-8-sig)") doc 0)
  else
    let (s0, i0) := skip_ws doc 0 in
    match scan_once (S (length doc)) s0 i0 with
    | Done v s1 i1 =>
        let (s2, i2) := skip_ws s1 i1 in
        match s2 with
        | [] => Ok v
        | _ :: _ => Raise (JSONDecodeError (lit "Extra data") doc i2)
        end
    | StopIteration i => Raise (JSONDecodeError (lit "Expecting value") doc i)
    | DecodeError m p => Raise (JSONDecodeError m doc p)
    | Failure e => Raise e
    end.

End Decoder.

(** ** Prompt templates ([prompts.py])

    A format string is kept in parsed form: literal text and replacement
    fields.  Each template of [prompts.py] has one field and no other brace. *)

Inductive piece : Type :=
| Literal (s : str)
| Field (name : str).

Definition template := list piece.

Definition nl : str := [10%N].
Definition dq : str := [34%N].
Definition en_dash : str := [8211%N].

Definition lines (ls : list str) : str := join nl ls.

(** The text of [FEEDBACK_PROMPT] before its field. *)
Definition FEEDBACK_PROMPT_head : str :=
  lines
      [ [];
        lit "You are an expert instructor coach. Given the following set of student feedback items for a course, do three things:";
        [];
        lit "1) Write a concise summary (2-3 sentences) capturing the main themes.";
        lit "2) Tag the overall sentiment as one of: positive, neutral, negative.";
        lit "3) Give 2" ++ en_dash ++ lit "3 concrete, prioritized action recommendations the instructor can implement next week (each 6-12 words).";
        [];
        lit "Return ONLY valid JSON without markdown code blocks. Use these exact keys: summary, sentiment, actions, example_quotes.";
        [];
        lit "Input feedback items:";
        [] ].

Definition FEEDBACK_PROMPT : template :=
  [ Literal FEEDBACK_PROMPT_head; Field (lit "feedback_items"); Literal nl ].

(** The text of [LECTURE_PROMPT] before its field. *)
Definition LECTURE_PROMPT_head : str :=
  lines
      [ [];
        lit "You are an expert medical education reviewer and pedagogy coach.";
        [];
        lit "Analyze the following lecture transcript and provide a structured critique covering:";
        lit "1. **Overall summary** (2" ++ en_dash ++ lit "3 sentences).";
        lit "2. **Clarity & Structure**: strengths and weaknesses in explanation and flow.";
        lit "3. **Missing Key Content**: concepts or guidelines typically expected but absent.";
        lit "4. **Possible Factual Mistakes or Outdated Info**: flag cautiously, cite reasoning.";
        lit "5. **Pedagogical Suggestions**: concrete steps to improve student engagement/learning.";
        [];
        lit "Return ONLY valid JSON without markdown code blocks or backticks. Use these exact keys:";
        lit "- " ++ dq ++ lit "summary" ++ dq;
        lit "- " ++ dq ++ lit "clarity_structure" ++ dq ++ lit "  ";
        lit "- " ++ dq ++ lit "missing_content" ++ dq;
        lit "- " ++ dq ++ lit "factual_issues" ++ dq;
        lit "- " ++ dq ++ lit "pedagogical_suggestions" ++ dq;
        [];
        lit "Transcript:";
        [] ].

Definition LECTURE_PROMPT : template :=
  [ Literal LECTURE_PROMPT_head; Field (lit "transcript_text"); Literal nl ].

Fixpoint kw_lookup (kwargs : list (str * str)) (name : str) : option str :=
  match kwargs with
  | [] => None
  | (k, v) :: rest => if str_eqb k name then Some v else kw_lookup rest name
  end.

Definition KeyError (name : str) : exn :=
  mk_exn (lit "KeyError") (lit "'" ++ name ++ lit "'").

(** [t.format(name=value, ...)]: each field is replaced by its binding, once; the
    substituted text is not scanned again. *)
Fixpoint format (t : template) (kwargs : list (str * str)) : outcome str :=
  match t with
  | [] => Ok []
  | Literal s :: t' =>
      match format t' kwargs with
      | Ok r => Ok (s ++ r)
      | Raise e => Raise e
      end
  | Field name :: t' =>
      match kw_lookup kwargs name with
      | None => Raise (KeyError name)
      | Some v =>
          match format t' kwargs with
          | Ok r => Ok (v ++ r)
          | Raise e => Raise e
          end
      end
  end.

(** ** Feedback rows and [DataFrame.groupby]

    A row of the uploaded CSV.  The two identifier columns hold integers,
    as pandas reads numeric columns; the feedback text is a [str]. *)

Record FeedbackRow : Type := {
  instructor_id : Z;
  course_id : Z;
  feedback_text : str
}.

Definition DataFrame := list FeedbackRow.

Definition GroupKey := (Z * Z)%type.

Definition row_key (r : FeedbackRow) : GroupKey := (instructor_id r, course_id r).

Definition key_eqb (a b : GroupKey) : bool :=
  ((fst a =? fst b) && (snd a =? snd b))%Z.

(** Tuples compare lexicographically. *)
Definition key_ltb (a b : GroupKey) : bool :=
  ((fst a <? fst b) || ((fst a =? fst b) && (snd a <? snd b)))%Z.

Definition key_lt (a b : GroupKey) : Prop := key_ltb a b = true.

(** Insertion of a key into an ascending list without repetition. *)
Fixpoint insert_key (k : GroupKey) (ks : list GroupKey) : list GroupKey :=
  match ks with
  | [] => [k]
  | k' :: ks' =>
      if key_ltb k k' then k :: ks
      else if key_eqb k k' then ks
      else k' :: insert_key k ks'
  end.

(** The distinct keys of the frame, ascending. *)
Definition group_keys (df : DataFrame) : list GroupKey :=
  fold_right insert_key [] (map row_key df).

(** [df.groupby(["instructor_id", "course_id"])] as iterated by the loop:
    pandas sorts the group keys ([sort=True] is its default) and keeps the
    rows of a group in their order in the frame. *)
Definition groupby (df : DataFrame) : list (GroupKey * DataFrame) :=
  map (fun k => (k, filter (fun r => key_eqb (row_key r) k) df)) (group_keys df).

(** [enumerate(xs)] *)
Definition enumerate {A : Type} (xs : list A) : list (nat * A) :=
  combine (seq 0 (length xs)) xs.

(** ** The page and the outside world *)

Inductive ui_event : Type :=
| UiNewProgress (value : nat)        (* st.progress(0) *)
| UiNewEmpty                         (* st.empty() *)
| UiStatusText (s : str)             (* status_text.text(s) *)
| UiSetProgress (num den : nat)      (* progress_bar.progress(num / den) *)
| UiError (s : str)                  (* st.error(s) *)
| UiText (s : str)                   (* st.text(s) *)
| UiSleep (seconds : nat)            (* time.sleep(seconds) *)
| UiClearProgress                    (* progress_bar.empty() *)
| UiClearStatus                      (* status_text.empty() *)
| StdoutPrint (s : str).             (* print(...) *)

(** The request of [openai.ChatCompletion.create] and the part of its
    response that is read. *)
Record ChatRequest : Type := {
  model : str;
  messages : list (str * str);   (* role, content *)
  temperature : str;             (* the literal, as text *)
  max_tokens : Z
}.

Record ChatResponse : Type := {
  choices : list str             (* choices[i].message.content *)
}.

(** A caption segment; only its text is read. *)
Record Segment : Type := { text : str }.

Definition IndexError : exn :=
  mk_exn (lit "IndexError") (lit "list index out of range").

(** ** The program *)

Section Pipeline.

(** The services the program talks to, and the JSON decoder it calls. *)
Variable World : Type.
Variable ChatCompletion_create : ChatRequest -> World -> outcome ChatResponse * World.
Variable YouTubeTranscriptApi_fetch : str -> World -> outcome (list Segment) * World.
Variable json_loads : str -> outcome json.

Record state : Type := { world : World; page : list ui_event }.

(** Computations that may raise, talk to the world and write to the page. *)
Definition M (A : Type) : Type := state -> outcome A * state.

Definition ret {A : Type} (a : A) : M A := fun s => (Ok a, s).

Definition bind {A B : Type} (m : M A) (k : A -> M B) : M B :=
  fun s =>
    match m s with
    | (Ok a, s') => k a s'
    | (Raise e, s') => (Raise e, s')
    end.

Definition lift {A : Type} (r : outcome A) : M A := fun s => (r, s).

Definition external {A : Type} (op : World -> outcome A * World) : M A :=
  fun s =>
    let (r, w) := op (world s) in
    (r, {| world := w; page := page s |}).

Definition ui (ev : ui_event) : M unit :=
  fun s => (Ok tt, {| world := world s; page := page s ++ [ev] |}).

(** [try: body  except Exception as e: handler(e)] *)
Definition try_except {A : Type} (body : M A) (handler : exn -> M A) : M A :=
  fun s =>
    match body s with
    | (Ok a, s') => (Ok a, s')
    | (Raise e, s') => handler e s'
    end.

Local Notation "x <- m ;; k" := (bind m (fun x => k))
  (at level 61, m at next level, right associativity).
Local Notation "m ;;; k" := (bind m (fun _ => k))
  (at level 61, right associativity).

(** [call_llm(prompt, model, temperature, max_tokens)], on the world. *)
Definition call_llm_with (prompt model_ temperature_ : str) (max_tokens_ : Z)
    (w : World) : outcome str * World :=
  match ChatCompletion_create
          {| model := model_;
             messages := [(lit "user", prompt)];
             temperature := temperature_;
             max_tokens := max_tokens_ |} w with
  | (Ok resp, w') =>
      match choices resp with
      | content :: _ => (Ok content, w')
      | [] => (Raise IndexError, w')
      end
  | (Raise e, w') => (Raise e, w')
  end.

(** [call_llm(prompt)] with the defaults of its signature. *)
Definition call_llm (prompt : str) : World -> outcome str * World :=
  call_llm_with prompt (lit "gpt-4o-mini") (lit "0.2") 800.

(** The cleaning both call sites apply to the answer before decoding it. *)
Definition clean_response (raw : str) : str :=
  let cleaned_raw := strip raw in
  let cleaned_raw :=
    if startswith cleaned_raw (lit "```json")
    then slice_from cleaned_raw 7 else cleaned_raw in
  let cleaned_raw :=
    if endswith cleaned_raw (lit "```")
    then slice_to cleaned_raw (-3) else cleaned_raw in
  strip cleaned_raw.

(** *** [process_feedback] *)

(** [str(x)] of a feedback text. *)
Definition py_str (x : str) : str := x.

Definition feedback_items (g : DataFrame) : str :=
  join nl (map (fun x => lit "- " ++ py_str x) (map feedback_text g)).

Definition feedback_prompt (g : DataFrame) : outcome str :=
  format FEEDBACK_PROMPT [(lit "feedback_items", slice_to (feedback_items g) 2000)].

(** The [try] block of the loop and its handler. *)
Definition parse_feedback (raw : str) : M json :=
  try_except
    (lift (json_loads (clean_response raw)))
    (fun e =>
       ui (UiError (lit "Error parsing feedback response: " ++ exn_message e)) ;;;
       ret (JDict [(lit "summary", JStr raw)])).

(** The dict appended to [results]. *)
Definition feedback_record (inst course : Z) (parsed : json) : outcome dict :=
  match py_get parsed (lit "summary") with
  | Raise e => Raise e
  | Ok summary =>
  match py_get parsed (lit "sentiment") with
  | Raise e => Raise e
  | Ok sentiment =>
  match py_get parsed (lit "actions") with
  | Raise e => Raise e
  | Ok actions =>
  match py_get parsed (lit "example_quotes") with
  | Raise e => Raise e
  | Ok example_quotes =>
      Ok [ (lit "instructor_id", JInt inst);
           (lit "course_id", JInt course);
           (lit "summary", summary);
           (lit "sentiment", sentiment);
           (lit "actions", actions);
           (lit "examples", example_quotes) ]
  end end end end.

(** One iteration of the loop; it returns the dict it appends. *)
Definition feedback_step (total_groups i : nat) (key : GroupKey) (g : DataFrame) : M dict :=
  let (inst, course) := key in
  ui (UiStatusText (lit "Analyzing feedback for Instructor " ++ str_of_Z inst
                      ++ lit ", Course " ++ str_of_Z course ++ lit "...")) ;;;
  prompt <- lift (feedback_prompt g) ;;
  raw <- external (call_llm prompt) ;;
  parsed <- parse_feedback raw ;;
  record <- lift (feedback_record inst course parsed) ;;
  ui (UiSetProgress (i + 1) total_groups) ;;;
  ret record.

Fixpoint feedback_loop (total_groups : nat) (gs : list (nat * (GroupKey * DataFrame)))
    (results : list dict) : M (list dict) :=
  match gs with
  | [] => ret results
  | (i, (key, g)) :: rest =>
      record <- feedback_step total_groups i key g ;;
      feedback_loop total_groups rest (results ++ [record])
  end.

Definition process_feedback (df : DataFrame) : M (list dict) :=
  let total_groups := length (groupby df) in
  ui (UiNewProgress 0) ;;;
  ui UiNewEmpty ;;;
  results <- feedback_loop total_groups (enumerate (groupby df)) [] ;;
  ui (UiStatusText (lit "Analysis complete!")) ;;;
  ui (UiSleep 1) ;;;
  ui UiClearProgress ;;;
  ui UiClearStatus ;;;
  ret results.

(** *** [fetch_youtube_transcript] *)

Definition truncation_marker : str := lit " ...[truncated]".

(** The cap on the fetched text. *)
Definition truncate (text_ : str) (max_chars : Z) : str :=
  if (max_chars <? Z.of_nat (length text_))%Z
  then slice_to text_ max_chars ++ truncation_marker
  else text_.

(** A string is true when it is not empty. *)
Definition truthy (s : str) : bool :=
  match s with [] => false | _ :: _ => true end.

Definition transcript_of (transcript_data : list Segment) : str :=
  join (lit " ") (map text (filter (fun seg => truthy (strip (text seg))) transcript_data)).

Definition fetch_youtube_transcript (video_id : str) (max_chars : Z) : M str :=
  transcript_data <- external (YouTubeTranscriptApi_fetch video_id) ;;
  let text_ := transcript_of transcript_data in
  ui (StdoutPrint (str_of_nat (length text_) ++ lit " characters in fetched transcript")) ;;;
  ret (truncate text_ max_chars).

(** The default of the signature. *)
Definition default_max_chars : Z := 60000.

(** *** [analyze_transcript] *)

Definition lecture_prompt (transcript_text : str) : outcome str :=
  format LECTURE_PROMPT [(lit "transcript_text", slice_to transcript_text 5000)].

Definition parse_critique (raw : str) : M json :=
  try_except
    (lift (json_loads (clean_response raw)))
    (fun e =>
       ui (UiError (lit "Error parsing LLM response: " ++ exn_message e)) ;;;
       ui (UiText (lit "Raw response:")) ;;;
       ui (UiText raw) ;;;
       ret (JDict [ (lit "summary", JStr (lit "Error parsing response"));
                    (lit "error", JStr (exn_message e)) ])).

Definition analyze_transcript (transcript_text : str) : M json :=
  prompt <- lift (lecture_prompt transcript_text) ;;
  raw <- external (call_llm prompt) ;;
  parse_critique raw.

(** *** Runs of the completion service *)

(** [llm_answers w prompts raws w']: asked the [prompts] one after the
    other from world [w], the service answers each of them, with [raws],
    and leaves the world [w']. *)
Inductive llm_answers : World -> list str -> list str -> World -> Prop :=
| llm_answers_nil : forall w, llm_answers w [] [] w
| llm_answers_cons : forall w p raw w1 ps raws w2,
    call_llm p w = (Ok raw, w1) ->
    llm_answers w1 ps raws w2 ->
    llm_answers w (p :: ps) (raw :: raws) w2.

End Pipeline.

(** ** A scripted world

    Services that replay outcomes fixed in advance: the completions in
    order, one per request, and one captions result.  With the reference
    decoder they make the program runnable on concrete inputs. *)

Record Script : Type := {
  completions : list (outcome str);
  captions : outcome (list Segment)
}.

Definition APIConnectionError : exn :=
  mk_exn (lit "APIConnectionError") (lit "Error communicating with OpenAI").

Definition scripted_create (req : ChatRequest) (w : Script) : outcome ChatResponse * Script :=
  match completions w with
  | [] => (Raise APIConnectionError, w)
  | r :: rest =>
      (match r with
       | Ok content => Ok {| choices := [content] |}
       | Raise e => Raise e
       end,
       {| completions := rest; captions := captions w |})
  end.

Definition scripted_fetch (video_id : str) (w : Script) : outcome (list Segment) * Script :=
  (captions w, w).

Definition script (answers : list (outcome str)) (segs : outcome (list Segment)) : state Script :=
  {| world := {| completions := answers; captions := segs |}; page := [] |}.

(** The program run on scripted completions; the result, without the state. *)
Definition run_process_feedback (answers : list (outcome str)) (df : DataFrame)
    : outcome (list dict) :=
  fst (process_feedback scripted_create Decoder.loads df (script answers (Ok []))).

Definition run_analyze_transcript (answer : outcome str) (transcript_text : str)
    : outcome json :=
  fst (analyze_transcript scripted_create Decoder.loads transcript_text
         (script [answer] (Ok []))).

Definition run_fetch_youtube_transcript (segs : list str) (max_chars : Z) : outcome str :=
  fst (fetch_youtube_transcript scripted_fetch (lit "video") max_chars
         (script [] (Ok (map (fun s => {| text := s |}) segs)))).

Definition row (inst course : Z) (t : string) : FeedbackRow :=
  {| instructor_id := inst; course_id := course; feedback_text := lit t |}.

(** ** Notions the statements use *)

(** The keys of the frame in the order of their first row. *)
Fixpoint first_seen (ks : list GroupKey) : list GroupKey :=
  match ks with
  | [] => []
  | k :: rest => k :: filter (fun k' => negb (key_eqb k' k)) (first_seen rest)
  end.

Definition first_seen_keys (df : DataFrame) : list GroupKey :=
  first_seen (map row_key df).

(** The key a result record carries. *)
Definition record_key (r : dict) : option (json * json) :=
  match dict_lookup r (lit "instructor_id"), dict_lookup r (lit "course_id") with
  | Some a, Some b => Some (a, b)
  | _, _ => None
  end.

Definition json_key (k : GroupKey) : json * json := (JInt (fst k), JInt (snd k)).

Definition all_space (s : str) : bool := forallb is_space s.

(** The prompts as they reach the service: the head of the template, the
    text within its budget, and the closing line break. *)
Definition feedback_budget : nat := Z.to_nat 2000.
Definition lecture_budget : nat := Z.to_nat 5000.

Definition rendered_feedback_prompt (g : DataFrame) : str :=
  FEEDBACK_PROMPT_head ++ firstn feedback_budget (feedback_items g) ++ nl.

Definition rendered_lecture_prompt (transcript_text : str) : str :=
  LECTURE_PROMPT_head ++ firstn lecture_budget transcript_text ++ nl.

(** A text that begins, or ends, with a character that is not whitespace. *)
Definition starts_solid (t : str) : Prop :=
  match t with
  | a :: _ => is_space a = false
  | [] => False
  end.

Definition ends_solid (t : str) : Prop := starts_solid (rev t).

(** The text of a JSON object, without surrounding whitespace: it opens
    with a brace and closes with one. *)
Definition object_text (c : str) : Prop :=
  exists body, c = lit "{" ++ body ++ lit "}".

(** The ways an answer may present the text [c]: bare, inside a fence
    opened by [```json] and closed by [```], or with only one of the two
    markers; whitespace may surround every part. *)
Inductive json_fenced (c : str) : str -> Prop :=
| fenced_bare : forall ws1 ws2,
    all_space ws1 = true -> all_space ws2 = true ->
    json_fenced c (ws1 ++ c ++ ws2)
| fenced_both : forall ws1 ws2 ws3 ws4,
    all_space ws1 = true -> all_space ws2 = true ->
    all_space ws3 = true -> all_space ws4 = true ->
    json_fenced c (ws1 ++ lit "```json" ++ ws3 ++ c ++ ws4 ++ lit "```" ++ ws2)
| fenced_open : forall ws1 ws2 ws3,
    all_space ws1 = true -> all_space ws2 = true -> all_space ws3 = true ->
    json_fenced c (ws1 ++ lit "```json" ++ ws3 ++ c ++ ws2)
| fenced_close : forall ws1 ws2 ws4,
    all_space ws1 = true -> all_space ws2 = true -> all_space ws4 = true ->
    json_fenced c (ws1 ++ c ++ ws4 ++ lit "```" ++ ws2).

(** The mappings the two handlers fall back to. *)
Definition feedback_fallback (raw : str) : json :=
  JDict [(lit "summary", JStr raw)].

Definition critique_fallback (e : exn) : json :=
  JDict [ (lit "summary", JStr (lit "Error parsing response"));
          (lit "error", JStr (exn_message e)) ].

(** The state after more events were written to the page. *)
Definition log {World : Type} (s : state World) (evs : list ui_event) : state World :=
  {| world := world s; page := page s ++ evs |}.

(** The mapping [parsed] of the feedback loop for an answer [raw]: what the
    decoder returns, or the fallback when it raises. *)
Definition extracted_feedback (json_loads : str -> outcome json) (raw : str) : json :=
  match json_loads (clean_response raw) with
  | Ok v => v
  | Raise _ => feedback_fallback raw
  end.

(** The answer [raw] to the prompt of group [kg] gives the record [r]. *)
Definition summarizes (json_loads : str -> outcome json)
    (kg_raw : (GroupKey * DataFrame) * str) (r : dict) : Prop :=
  let '((inst, course, _), raw) := kg_raw in
  feedback_record inst course (extracted_feedback json_loads raw) = Ok r.

(** An answer the loop can turn into a record: what it decodes to, if it
    decodes, is a dict. *)
Definition usable_answer (json_loads : str -> outcome json) (raw : str) : Prop :=
  forall v, json_loads (clean_response raw) = Ok v -> exists d, v = JDict d.

(** The prompts of a run, one per group, in the order of the loop. *)
Definition feedback_prompts (df : DataFrame) : list str :=
  map (fun kg => rendered_feedback_prompt (snd kg)) (groupby df).

(** The prompt of one numbered group of the loop. *)
Definition step_prompt (ikg : nat * (GroupKey * DataFrame)) : str :=
  rendered_feedback_prompt (snd (snd ikg)).

(** The request [call_llm] sends for a prompt, with the defaults of its
    signature. *)
Definition chat_request (prompt : str) : ChatRequest :=
  {| model := lit "gpt-4o-mini";
     messages := [(lit "user", prompt)];
     temperature := lit "0.2";
     max_tokens := 800 |}.

(** ** Concrete inputs *)

(** Two groups whose keys are met in descending order. *)
Definition two_groups : DataFrame :=
  [ row 2 20 "too fast"; row 1 10 "very clear"; row 2 20 "more examples please" ].

Definition empty_object : str := lit "{}".

Definition not_json : str := lit "not json at all".

(** An object inside a fence whose opening marker has no tag. *)
Definition untagged_fence : str := lit "```" ++ nl ++ lit "{}" ++ nl ++ lit "```".

Definition tagged_fence : str := lit "```json" ++ nl ++ lit "{}" ++ nl ++ lit "```".

(** The answer of the first scenario of the specification. *)
Definition scenario_answer : str :=
  lit "```json" ++ nl
  ++ lit "{" ++ dq ++ lit "summary" ++ dq ++ lit ":" ++ dq ++ lit "ok" ++ dq
  ++ lit "," ++ dq ++ lit "sentiment" ++ dq ++ lit ":" ++ dq ++ lit "positive" ++ dq
  ++ lit "}" ++ nl ++ lit "```".

(** An object with a key no critique has, and without most of those it has. *)
Definition extra_key_answer : str :=
  lit "{" ++ dq ++ lit "summary" ++ dq ++ lit ":" ++ dq ++ lit "ok" ++ dq
  ++ lit "," ++ dq ++ lit "extra" ++ dq ++ lit ":1}".

(** Captions with a blank segment between two words. *)
Definition blank_segment_captions : list str := [lit "a"; lit " "; lit "b"].

(** ** Truth values of Python objects *)

(** The value of an exponent part such as [e-12]. *)
Definition exponent_value (ex : str) : Z :=
  match ex with
  | _ :: 45%N :: ds => - Decoder.Z_of_digits ds
  | _ :: 43%N :: ds => Decoder.Z_of_digits ds
  | _ :: ds => Decoder.Z_of_digits ds
  | [] => 0
  end.

(** [float(lexeme) == 0.0]: the digits are all zero, or the number is so
    small that it rounds to zero, which binary64 does up to and including
    half of its least positive value, two to the power -1075. *)
Definition float_is_zero (lexeme : str) : bool :=
  match Decoder.match_integer lexeme with
  | None => false
  | Some (_, ds, r0) =>
      let (frac, r1) := Decoder.match_frac r0 in
      let (ex, _) := Decoder.match_exp r1 in
      let m := Decoder.Z_of_digits (ds ++ tl frac) in
      let e := (exponent_value ex - Z.of_nat (length (tl frac)))%Z in
      ((m =? 0) || ((e <? 0) && (m * 2 ^ 1075 <=? 10 ^ (- e))))%Z
  end.

(** [bool(v)] *)
Definition py_bool (v : json) : bool :=
  match v with
  | JNull => false
  | JBool b => b
  | JInt z => negb (z =? 0)%Z
  | JFloat lexeme => negb (float_is_zero lexeme)
  | JStr s => truthy s
  | JList items => match items with [] => false | _ :: _ => true end
  | JDict d => match d with [] => false | _ :: _ => true end
  end.

(** [v[k]] for a string key. *)
Definition py_getitem (v : json) (k : str) : outcome json :=
  match v with
  | JDict d =>
      match dict_lookup d k with
      | Some x => Ok x
      | None => Raise (KeyError k)
      end
  | JNull =>
      Raise (mk_exn (lit "TypeError") (lit "'NoneType' object is not subscriptable"))
  | JBool _ | JInt _ | JFloat _ =>
      Raise (mk_exn (lit "TypeError")
               (lit "'" ++ type_name v ++ lit "' object is not subscriptable"))
  | JStr _ =>
      Raise (mk_exn (lit "TypeError") (lit "string indices must be integers, not 'str'"))
  | JList _ =>
      Raise (mk_exn (lit "TypeError")
               (lit "list indices must be integers or slices, not str"))
  end.

(** ** [display_lecture_critique] *)

(** Where a widget is placed, and the calls that place one. *)
Inductive container : Type :=
| MainPage
| Tab (n : nat).

Inductive widget : Type :=
| StSubheader (s : str)
| StWrite (v : json)
| StTabs (labels : list str)
| StWarning (v : json)
| StSuccess (s : str)
| StInfo (s : str).

Definition screen := list (container * widget).

(** Display code: it may raise, and it adds widgets to the screen. *)
Definition D (A : Type) : Type := screen -> outcome A * screen.

Definition dret {A : Type} (a : A) : D A := fun sc => (Ok a, sc).

Definition dbind {A B : Type} (m : D A) (k : A -> D B) : D B :=
  fun sc =>
    match m sc with
    | (Ok a, sc') => k a sc'
    | (Raise e, sc') => (Raise e, sc')
    end.

Definition dlift {A : Type} (r : outcome A) : D A := fun sc => (r, sc).

Definition place (c : container) (w : widget) : D unit :=
  fun sc => (Ok tt, sc ++ [(c, w)]).

Definition tab_labels : list str :=
  [ [128269%N] ++ lit " Clarity & Structure";
    [10067%N] ++ lit " Missing Content";
    [9888%N; 65039%N] ++ lit " Factual Issues";
    [128161%N] ++ lit " Teaching Suggestions" ].

(** The texts for which the factual-issues tab reports success. *)
Definition no_issue_texts : list str := [lit "none"; lit "no issues found"; []].

Definition str_in (x : str) (xs : list str) : bool := existsb (str_eqb x) xs.

Section Display.

(** [str.lower], which follows the Unicode case tables. *)
Variable str_lower : str -> str.

(** [v.strip().lower()] *)
Definition strip_lower (v : json) : outcome str :=
  match v with
  | JStr t => Ok (str_lower (strip t))
  | _ => Raise (AttributeError v (lit "strip"))
  end.

(** A tab that writes a field, or a stock sentence when the field is
    missing or false. *)
Definition field_tab (n : nat) (critique : json) (key : str) (missing : str) : D unit :=
  dbind (dlift (py_get critique key)) (fun field =>
  if py_bool field then
    dbind (dlift (py_getitem critique key)) (fun v => place (Tab n) (StWrite v))
  else place (Tab n) (StWrite (JStr missing))).

Definition factual_tab (critique : json) : D unit :=
  dbind (dlift (py_get critique (lit "factual_issues"))) (fun field =>
  if py_bool field then
    dbind (dlift (py_getitem critique (lit "factual_issues"))) (fun v =>
    dbind (dlift (strip_lower v)) (fun lowered =>
    if negb (str_in lowered no_issue_texts) then
      dbind (dlift (py_getitem critique (lit "factual_issues"))) (fun v' =>
      place (Tab 3) (StWarning v'))
    else
      place (Tab 3) (StSuccess ([9989%N] ++ lit " No factual issues identified"))))
  else place (Tab 3) (StInfo (lit "No factual issues analysis available."))).

Definition display_lecture_critique (critique : json) : D unit :=
  dbind (place MainPage (StSubheader ([128202%N] ++ lit " Lecture Analysis Results")))
    (fun _ =>
  dbind (dlift (py_get critique (lit "summary"))) (fun summary =>
  dbind (if py_bool summary then
           dbind (place MainPage (StSubheader ([128214%N] ++ lit " Overall Summary")))
             (fun _ =>
           dbind (dlift (py_getitem critique (lit "summary"))) (fun v =>
           place MainPage (StWrite v)))
         else dret tt) (fun _ =>
  dbind (place MainPage (StTabs tab_labels)) (fun _ =>
  dbind (field_tab 1 critique (lit "clarity_structure")
           (lit "No clarity and structure analysis available.")) (fun _ =>
  dbind (field_tab 2 critique (lit "missing_content")
           (lit "No missing content identified.")) (fun _ =>
  dbind (factual_tab critique) (fun _ =>
  field_tab 4 critique (lit "pedagogical_suggestions")
    (lit "No pedagogical suggestions available.")))))))).

End Display.

(** Lower case of the ASCII letters; it agrees with [str.lower] on ASCII
    text. *)
Definition ascii_lower (t : str) : str :=
  map (fun c => if ((65 <=? c) && (c <=? 90))%N then (c + 32)%N else c) t.

(** ** More notions for statements *)

(** A progress value the progress bar accepts: a fraction in (0, 1]. *)
Definition progress_in_range (ev : ui_event) : Prop :=
  match ev with
  | UiSetProgress num den => 1 <= num <= den
  | _ => True
  end.

(** A text without a backtick. *)
Definition no_backtick (t : str) : bool := forallb (fun c => negb (c =? 96)%N) t.

(** The outcome of the step of group [kg] from world [w]: what the
    completion call raises, or what building the record from its answer
    gives. *)
Definition step_outcome {World : Type}
    (ChatCompletion_create : ChatRequest -> World -> outcome ChatResponse * World)
    (json_loads : str -> outcome json)
    (kg : GroupKey * DataFrame) (w : World) : outcome dict :=
  match call_llm ChatCompletion_create (rendered_feedback_prompt (snd kg)) w with
  | (Ok raw, _) =>
      feedback_record (fst (fst kg)) (snd (fst kg)) (extracted_feedback json_loads raw)
  | (Raise e, _) => Raise e
  end.

(** An event other than a progress update, or the update to [num / den]. *)
Definition step_event (num den : nat) (ev : ui_event) : Prop :=
  match ev with
  | UiSetProgress n d => n = num /\ d = den
  | _ => True
  end.

(** * Facts *)

(** ** Strings *)

Lemma slice_to_nat (s : str) (n : nat) : slice_to s (Z.of_nat n) = firstn n s.
Proof.
  unfold slice_to.
  destruct (Z.leb_spec 0 (Z.of_nat n)); [|lia].
  now rewrite Nat2Z.id.
Qed.

Lemma slice_to_neg (s : str) (n : nat) :
  0 < n -> slice_to s (- Z.of_nat n) = firstn (length s - n) s.
Proof.
  intros Hn. unfold slice_to.
  destruct (Z.leb_spec 0 (- Z.of_nat n)); [lia|].
  now rewrite Z.opp_involutive, Nat2Z.id.
Qed.

Lemma all_space_app (a b : str) : all_space (a ++ b) = all_space a && all_space b.
Proof. unfold all_space. apply forallb_app. Qed.

Lemma all_space_rev (a : str) : all_space (rev a) = all_space a.
Proof.
  induction a as [|c a IH]; [reflexivity|].
  simpl rev. rewrite all_space_app, IH. simpl.
  rewrite andb_true_r. apply andb_comm.
Qed.

Lemma lstrip_space_app (ws s : str) : all_space ws = true -> lstrip (ws ++ s) = lstrip s.
Proof.
  induction ws as [|c ws IH]; simpl; intros H; [reflexivity|].
  apply andb_prop in H. destruct H as [Hc Hws].
  rewrite Hc. auto.
Qed.

Lemma rstrip_app_space (s ws : str) : all_space ws = true -> rstrip (s ++ ws) = rstrip s.
Proof.
  intros H. unfold rstrip. rewrite rev_app_distr.
  rewrite lstrip_space_app; [reflexivity|]. now rewrite all_space_rev.
Qed.

Lemma lstrip_all_space (s : str) : all_space s = true -> lstrip s = [].
Proof.
  intros H. rewrite <- (app_nil_r s). now rewrite lstrip_space_app.
Qed.

Lemma lstrip_nil_all_space (s : str) : lstrip s = [] -> all_space s = true.
Proof.
  induction s as [|c s IH]; simpl; [reflexivity|].
  destruct (is_space c); simpl; [exact IH|discriminate].
Qed.

Lemma lstrip_suffix (s : str) : exists ws, all_space ws = true /\ s = ws ++ lstrip s.
Proof.
  induction s as [|c s [ws [Hws E]]]; simpl.
  - exists []. now split.
  - destruct (is_space c) eqn:Hc.
    + exists (c :: ws). simpl. rewrite Hc, Hws. split; [reflexivity|]. now f_equal.
    + exists []. now split.
Qed.

(** A text is blank for [strip] exactly when all its characters are
    whitespace. *)
Lemma strip_blank (s : str) : truthy (strip s) = false <-> all_space s = true.
Proof.
  split.
  - intros H. destruct (strip s) as [|c r] eqn:E; [|discriminate].
    unfold strip, rstrip in E.
    apply (f_equal (@rev char)) in E. rewrite rev_involutive in E. simpl in E.
    apply lstrip_nil_all_space in E. rewrite all_space_rev in E.
    destruct (lstrip_suffix s) as [ws [Hws Es]].
    rewrite Es, all_space_app, Hws, E. reflexivity.
  - intros H. unfold strip. now rewrite (lstrip_all_space _ H).
Qed.

Lemma startswith_app (p s : str) : startswith (p ++ s) p = true.
Proof.
  induction p as [|c p IH]; simpl; [reflexivity|].
  now rewrite N.eqb_refl.
Qed.

Lemma endswith_app (s p : str) : endswith (s ++ p) p = true.
Proof. unfold endswith. rewrite rev_app_distr. apply startswith_app. Qed.

Lemma endswith_last_neq (s p : str) (a b : char) :
  a <> b -> endswith (s ++ [a]) (p ++ [b]) = false.
Proof.
  intros H. unfold endswith. rewrite !rev_app_distr. simpl.
  apply N.eqb_neq in H. rewrite N.eqb_sym. now rewrite H.
Qed.

(** ** Truncation *)

Lemma truncation_marker_length : length truncation_marker = 15.
Proof. reflexivity. Qed.

Lemma truncate_short (T : str) (L : nat) :
  length T <= L -> truncate T (Z.of_nat L) = T.
Proof.
  intros H. unfold truncate.
  destruct (Z.ltb_spec (Z.of_nat L) (Z.of_nat (length T))); [lia|reflexivity].
Qed.

Lemma truncate_long (T : str) (L : nat) :
  L < length T -> truncate T (Z.of_nat L) = firstn L T ++ truncation_marker.
Proof.
  intros H. unfold truncate.
  destruct (Z.ltb_spec (Z.of_nat L) (Z.of_nat (length T))); [|lia].
  now rewrite slice_to_nat.
Qed.

Lemma truncate_long_length (T : str) (L : nat) :
  L < length T -> length (truncate T (Z.of_nat L)) = L + length truncation_marker.
Proof.
  intros H. rewrite truncate_long by exact H.
  rewrite length_app, firstn_length_le by lia. reflexivity.
Qed.

(** C6. Truncation at a limit of [L] characters leaves a text of at most [L]
    characters unchanged, and cuts a longer one to its first [L] characters
    followed by the marker [" ...[truncated]"] of 15 characters, so that the
    result has [L + 15] characters; a text of 70000 characters capped at
    60000 has 60015.  Truncation is a total function: it never raises. *)
Theorem truncate_spec (T : str) (L : nat) :
  (length T <= L -> truncate T (Z.of_nat L) = T) /\
  (L < length T ->
     truncate T (Z.of_nat L) = firstn L T ++ lit " ...[truncated]" /\
     length (truncate T (Z.of_nat L)) = L + length (lit " ...[truncated]")) /\
  length (lit " ...[truncated]") = 15 /\
  (Z.of_nat (length T) = 70000 ->
     Z.of_nat (length (truncate T default_max_chars)) = 60000 + 15)%Z.
Proof.
  split; [apply truncate_short|].
  split; [intros H; split; [now apply truncate_long|now apply truncate_long_length]|].
  split; [reflexivity|].
  intros H.
  replace default_max_chars with (Z.of_nat (Z.to_nat 60000))
    by (unfold default_max_chars; lia).
  rewrite truncate_long_length by lia.
  rewrite truncation_marker_length. lia.
Qed.

(** The truncation facts on a short text, a long one and a text of 70000
    characters. *)
Lemma truncate_spec_witness :
  length (lit "abc") <= 5 /\ truncate (lit "abc") (Z.of_nat 5) = lit "abc" /\
  2 < length (lit "abcdef") /\
  truncate (lit "abcdef") (Z.of_nat 2) = lit "ab ...[truncated]" /\
  (Z.of_nat (length (truncate (repeat 120%N (Z.to_nat 70000)) default_max_chars))
   = 60015)%Z.
Proof.
  split; [simpl; lia|].
  split; [apply (proj1 (truncate_spec (lit "abc") 5)); simpl; lia|].
  split; [simpl; lia|].
  split;
    [apply (proj1 (proj1 (proj2 (truncate_spec (lit "abcdef") 2)) ltac:(simpl; lia)))|].
  apply (proj2 (proj2 (proj2 (truncate_spec (repeat 120%N (Z.to_nat 70000)) 0)))).
  rewrite repeat_length. lia.
Defined.

(** ** Prompt templates *)

Lemma str_eqb_refl (a : str) : str_eqb a a = true.
Proof. induction a as [|c a IH]; simpl; [reflexivity|]. now rewrite N.eqb_refl. Qed.

Lemma format_FEEDBACK_PROMPT (v : str) :
  format FEEDBACK_PROMPT [(lit "feedback_items", v)] = Ok (FEEDBACK_PROMPT_head ++ v ++ nl).
Proof.
  unfold FEEDBACK_PROMPT, format, kw_lookup.
  rewrite str_eqb_refl, app_nil_r. reflexivity.
Qed.

Lemma format_LECTURE_PROMPT (v : str) :
  format LECTURE_PROMPT [(lit "transcript_text", v)] = Ok (LECTURE_PROMPT_head ++ v ++ nl).
Proof.
  unfold LECTURE_PROMPT, format, kw_lookup.
  rewrite str_eqb_refl, app_nil_r. reflexivity.
Qed.

Lemma feedback_prompt_rendered (g : DataFrame) :
  feedback_prompt g = Ok (rendered_feedback_prompt g).
Proof.
  unfold feedback_prompt. rewrite format_FEEDBACK_PROMPT.
  unfold rendered_feedback_prompt, feedback_budget, slice_to. reflexivity.
Qed.

Lemma lecture_prompt_rendered (t : str) :
  lecture_prompt t = Ok (rendered_lecture_prompt t).
Proof.
  unfold lecture_prompt. rewrite format_LECTURE_PROMPT.
  unfold rendered_lecture_prompt, lecture_budget, slice_to. reflexivity.
Qed.

Section RequestFacts.

Variable World : Type.
Variables create1 create2 : ChatRequest -> World -> outcome ChatResponse * World.
Variable json_loads : str -> outcome json.

Implicit Types (s : state World) (w : World).

(** [call_llm] reaches the service through one request only. *)
Lemma call_llm_ext (prompt : str) w :
  create1 (chat_request prompt) w = create2 (chat_request prompt) w ->
  call_llm create1 prompt w = call_llm create2 prompt w.
Proof.
  intros H. unfold call_llm, call_llm_with.
  change {| model := lit "gpt-4o-mini"; messages := [(lit "user", prompt)];
            temperature := lit "0.2"; max_tokens := 800 |}
    with (chat_request prompt).
  now rewrite H.
Qed.

Lemma feedback_step_ext (total i : nat) (key : GroupKey) (g : DataFrame) s :
  create1 (chat_request (rendered_feedback_prompt g)) (world s)
  = create2 (chat_request (rendered_feedback_prompt g)) (world s) ->
  feedback_step create1 json_loads total i key g s
  = feedback_step create2 json_loads total i key g s.
Proof.
  intros H. destruct key as [inst course].
  unfold feedback_step, bind at 1, ui at 1.
  unfold bind at 1, lift at 1. rewrite feedback_prompt_rendered.
  unfold bind at 1, external at 1. cbn [world page].
  symmetry.
  unfold bind at 1, ui at 1.
  unfold bind at 1, lift at 1.
  unfold bind at 1, external at 1. cbn [world page].
  now rewrite (call_llm_ext H).
Qed.

Lemma analyze_transcript_ext (transcript_text : str) s :
  create1 (chat_request (rendered_lecture_prompt transcript_text)) (world s)
  = create2 (chat_request (rendered_lecture_prompt transcript_text)) (world s) ->
  analyze_transcript create1 json_loads transcript_text s
  = analyze_transcript create2 json_loads transcript_text s.
Proof.
  intros H. unfold analyze_transcript, bind at 1, lift at 1.
  rewrite lecture_prompt_rendered.
  unfold bind at 1, external at 1.
  symmetry.
  unfold bind at 1, lift at 1. unfold bind at 1, external at 1.
  now rewrite (call_llm_ext H).
Qed.

End RequestFacts.

(** C7. The text put in place of a template's field is cut to the
    template's budget beforehand: the feedback prompt is the template with
    the first 2000 characters at most of the bullet list in its field, the
    lecture prompt is the template with the first 5000 characters at most of
    the transcript.  The substituted text is a prefix of the full text and
    never longer than the budget.  These prompts are what reaches the
    service: a step of the feedback loop, and [analyze_transcript], depend
    on the service only through its reaction to the request that carries the
    rendered prompt. *)
Theorem prompts_receive_pretruncated_text :
  (forall g : DataFrame,
     feedback_prompt g
       = Ok (FEEDBACK_PROMPT_head ++ firstn (Z.to_nat 2000) (feedback_items g) ++ nl)
     /\ (Z.of_nat (length (firstn (Z.to_nat 2000) (feedback_items g))) <= 2000)%Z
     /\ feedback_items g
        = firstn (Z.to_nat 2000) (feedback_items g)
            ++ skipn (Z.to_nat 2000) (feedback_items g)) /\
  (forall transcript_text : str,
     lecture_prompt transcript_text
       = Ok (LECTURE_PROMPT_head ++ firstn (Z.to_nat 5000) transcript_text ++ nl)
     /\ (Z.of_nat (length (firstn (Z.to_nat 5000) transcript_text)) <= 5000)%Z
     /\ transcript_text
        = firstn (Z.to_nat 5000) transcript_text
            ++ skipn (Z.to_nat 5000) transcript_text) /\
  (forall (World : Type)
          (create1 create2 : ChatRequest -> World -> outcome ChatResponse * World)
          (json_loads : str -> outcome json)
          (total i : nat) (key : GroupKey) (g : DataFrame) (s : state World),
     create1 (chat_request
                (FEEDBACK_PROMPT_head ++ firstn (Z.to_nat 2000) (feedback_items g) ++ nl))
       (world s)
     = create2 (chat_request
                  (FEEDBACK_PROMPT_head ++ firstn (Z.to_nat 2000) (feedback_items g) ++ nl))
         (world s) ->
     feedback_step create1 json_loads total i key g s
     = feedback_step create2 json_loads total i key g s) /\
  (forall (World : Type)
          (create1 create2 : ChatRequest -> World -> outcome ChatResponse * World)
          (json_loads : str -> outcome json)
          (transcript_text : str) (s : state World),
     create1 (chat_request
                (LECTURE_PROMPT_head ++ firstn (Z.to_nat 5000) transcript_text ++ nl))
       (world s)
     = create2 (chat_request
                  (LECTURE_PROMPT_head ++ firstn (Z.to_nat 5000) transcript_text ++ nl))
         (world s) ->
     analyze_transcript create1 json_loads transcript_text s
     = analyze_transcript create2 json_loads transcript_text s).
Proof.
  split; [|split; [|split]].
  - intros g. split; [apply feedback_prompt_rendered|].
    split; [|symmetry; apply firstn_skipn].
    pose proof (firstn_le_length (Z.to_nat 2000) (feedback_items g)). lia.
  - intros t. split; [apply lecture_prompt_rendered|].
    split; [|symmetry; apply firstn_skipn].
    pose proof (firstn_le_length (Z.to_nat 5000) t). lia.
  - intros World create1 create2 json_loads total i key g s H.
    now apply feedback_step_ext.
  - intros World create1 create2 json_loads t s H.
    now apply analyze_transcript_ext.
Qed.

(** ** Cleaning of the answer *)

Lemma lstrip_solid (t : str) : starts_solid t -> lstrip t = t.
Proof. destruct t as [|a t]; simpl; [tauto|]. now intros ->. Qed.

Lemma rstrip_solid (t : str) : ends_solid t -> rstrip t = t.
Proof.
  unfold ends_solid, rstrip. intros H.
  rewrite lstrip_solid by exact H. apply rev_involutive.
Qed.

Lemma starts_solid_app (x y : str) : starts_solid x -> starts_solid (x ++ y).
Proof. destruct x; simpl; tauto. Qed.

Lemma ends_solid_app (x y : str) : ends_solid y -> ends_solid (x ++ y).
Proof. unfold ends_solid. rewrite rev_app_distr. apply starts_solid_app. Qed.

Lemma strip_solid (ws1 ws2 t : str) :
  all_space ws1 = true -> all_space ws2 = true ->
  starts_solid t -> ends_solid t ->
  strip (ws1 ++ t ++ ws2) = t.
Proof.
  intros H1 H2 Hs He. unfold strip.
  rewrite lstrip_space_app by exact H1.
  rewrite lstrip_solid by (now apply starts_solid_app).
  rewrite rstrip_app_space by exact H2.
  now apply rstrip_solid.
Qed.

Lemma strip_solid_id (t : str) : starts_solid t -> ends_solid t -> strip t = t.
Proof.
  intros Hs He. rewrite <- (strip_solid [] [] t) at 2 by (reflexivity || assumption).
  now rewrite app_nil_r.
Qed.

Lemma object_text_solid (c : str) :
  object_text c -> starts_solid c /\ ends_solid c.
Proof.
  intros [body ->]. split; [reflexivity|].
  rewrite app_assoc. apply ends_solid_app. reflexivity.
Qed.

Lemma object_text_no_markers (c : str) :
  object_text c ->
  startswith c (lit "```json") = false /\
  (forall x, endswith (x ++ c) (lit "```") = false).
Proof.
  intros [body ->]. split; [reflexivity|].
  intros x. rewrite !app_assoc.
  change (lit "}") with ([125%N] : str).
  change (lit "```") with ([96%N; 96%N] ++ [96%N] : str).
  apply endswith_last_neq. discriminate.
Qed.

Lemma closing_marker_cut (y : str) : slice_to (y ++ lit "```") (-3) = y.
Proof.
  change (-3)%Z with (- Z.of_nat 3)%Z. rewrite slice_to_neg by lia.
  rewrite length_app. change (length (lit "```")) with 3.
  replace (length y + 3 - 3) with (length y + 0) by lia.
  rewrite firstn_app_2. simpl. apply app_nil_r.
Qed.

(** Cleaning an answer that presents an object text, bare or behind the
    markers, leaves the object text. *)
Lemma clean_response_fenced (c raw : str) :
  object_text c -> json_fenced c raw -> clean_response raw = c.
Proof.
  intros Hc Hw.
  destruct (object_text_solid Hc) as [Hs He].
  destruct (object_text_no_markers Hc) as [Hno Hne].
  assert (Hb : ends_solid (lit "```")) by reflexivity.
  assert (Hf : starts_solid (lit "```json")) by reflexivity.
  unfold clean_response.
  destruct Hw as [ws1 ws2 H1 H2 | ws1 ws2 ws3 ws4 H1 H2 H3 H4
                 | ws1 ws2 ws3 H1 H2 H3 | ws1 ws2 ws4 H1 H2 H4].
  - rewrite strip_solid by assumption.
    rewrite Hno. specialize (Hne []). simpl in Hne. rewrite Hne.
    now apply strip_solid_id.
  - replace (ws1 ++ lit "```json" ++ ws3 ++ c ++ ws4 ++ lit "```" ++ ws2)
      with (ws1 ++ (lit "```json" ++ ws3 ++ c ++ ws4 ++ lit "```") ++ ws2)
      by (now rewrite <- !app_assoc).
    rewrite strip_solid;
      [ | assumption | assumption
        | now apply starts_solid_app
        | rewrite !app_assoc; now apply ends_solid_app ].
    + rewrite startswith_app.
      change (slice_from (lit "```json" ++ ws3 ++ c ++ ws4 ++ lit "```") 7)
        with (ws3 ++ c ++ ws4 ++ lit "```").
      replace (ws3 ++ c ++ ws4 ++ lit "```") with ((ws3 ++ c ++ ws4) ++ lit "```")
        by (now rewrite <- !app_assoc).
      rewrite endswith_app, closing_marker_cut.
      now apply strip_solid.
  - replace (ws1 ++ lit "```json" ++ ws3 ++ c ++ ws2)
      with (ws1 ++ (lit "```json" ++ ws3 ++ c) ++ ws2)
      by (now rewrite <- !app_assoc).
    rewrite strip_solid;
      [ | assumption | assumption
        | now apply starts_solid_app
        | rewrite !app_assoc; now apply ends_solid_app ].
    + rewrite startswith_app.
      change (slice_from (lit "```json" ++ ws3 ++ c) 7) with (ws3 ++ c).
      rewrite Hne.
      rewrite <- (app_nil_r (ws3 ++ c)), <- app_assoc.
      now apply strip_solid.
  - replace (ws1 ++ c ++ ws4 ++ lit "```" ++ ws2)
      with (ws1 ++ (c ++ ws4 ++ lit "```") ++ ws2)
      by (now rewrite <- !app_assoc).
    rewrite strip_solid;
      [ | assumption | assumption
        | now apply starts_solid_app
        | rewrite !app_assoc; now apply ends_solid_app ].
    + assert (E : startswith (c ++ ws4 ++ lit "```") (lit "```json") = false).
      { destruct Hc as [body ->]. reflexivity. }
      rewrite E.
      replace (c ++ ws4 ++ lit "```") with ((c ++ ws4) ++ lit "```")
        by (now rewrite <- !app_assoc).
      rewrite endswith_app, closing_marker_cut.
      rewrite <- (app_nil_l (c ++ ws4)).
      now apply strip_solid.
Qed.

(** ** The two extraction sites *)

Section ExtractionFacts.

Variable World : Type.
Variable json_loads : str -> outcome json.

Implicit Types (s : state World).

Lemma parse_feedback_ok (raw : str) (v : json) s :
  json_loads (clean_response raw) = Ok v -> parse_feedback json_loads raw s = (Ok v, s).
Proof. intros H. unfold parse_feedback, try_except, lift. now rewrite H. Qed.

Lemma parse_feedback_raise (raw : str) (e : exn) s :
  json_loads (clean_response raw) = Raise e ->
  parse_feedback json_loads raw s
  = (Ok (feedback_fallback raw),
     log s [UiError (lit "Error parsing feedback response: " ++ exn_message e)]).
Proof. intros H. unfold parse_feedback, try_except, lift. now rewrite H. Qed.

Lemma parse_critique_ok (raw : str) (v : json) s :
  json_loads (clean_response raw) = Ok v -> parse_critique json_loads raw s = (Ok v, s).
Proof. intros H. unfold parse_critique, try_except, lift. now rewrite H. Qed.

Lemma parse_critique_raise (raw : str) (e : exn) s :
  json_loads (clean_response raw) = Raise e ->
  parse_critique json_loads raw s
  = (Ok (critique_fallback e),
     log s [ UiError (lit "Error parsing LLM response: " ++ exn_message e);
             UiText (lit "Raw response:"); UiText raw ]).
Proof.
  intros H. unfold parse_critique, try_except, lift. rewrite H.
  unfold bind, ui, ret, log. simpl. now rewrite <- !app_assoc.
Qed.

End ExtractionFacts.

(** ** One iteration of the feedback loop *)

Section FeedbackFacts.

Variable World : Type.
Variable ChatCompletion_create : ChatRequest -> World -> outcome ChatResponse * World.
Variable json_loads : str -> outcome json.

Implicit Types (s : state World) (w : World).

Lemma parse_feedback_extracted (raw : str) s :
  exists s', parse_feedback json_loads raw s = (Ok (extracted_feedback json_loads raw), s')
             /\ world s' = world s.
Proof.
  unfold extracted_feedback.
  destruct (json_loads (clean_response raw)) as [v|e] eqn:E.
  - exists s. now rewrite (parse_feedback_ok _ _ _ E).
  - eexists. now rewrite (parse_feedback_raise _ _ _ E).
Qed.

(** A step asks the service once, with the rendered prompt of its group; it
    raises what the service raises, and otherwise returns the record built
    from the answer, or raises what building it raises. *)
Lemma feedback_step_cases (total i : nat) (inst course : Z) (g : DataFrame) s :
  exists s',
    feedback_step ChatCompletion_create json_loads total i (inst, course) g s
    = (match call_llm ChatCompletion_create (rendered_feedback_prompt g) (world s) with
       | (Ok raw, _) => feedback_record inst course (extracted_feedback json_loads raw)
       | (Raise e, _) => Raise e
       end, s')
    /\ world s' = snd (call_llm ChatCompletion_create (rendered_feedback_prompt g) (world s)).
Proof.
  unfold feedback_step, bind at 1, ui at 1.
  unfold bind at 1, lift at 1. rewrite feedback_prompt_rendered.
  unfold bind at 1, external. cbn [world page].
  destruct (call_llm ChatCompletion_create (rendered_feedback_prompt g) (world s))
    as [[raw|e] w1]; [|eexists; split; reflexivity].
  unfold bind at 1.
  match goal with |- context [parse_feedback json_loads raw ?st] =>
    destruct (parse_feedback_extracted raw st) as [s1 [E1 W1]] end.
  rewrite E1. cbn [world] in W1.
  unfold bind at 1, lift at 1.
  destruct (feedback_record inst course (extracted_feedback json_loads raw)) as [r|e].
  - unfold bind, ui, ret. eexists. split; [reflexivity|]. exact W1.
  - eexists. split; [reflexivity|]. exact W1.
Qed.

(** ** The loop and the whole run *)

Lemma enumerate_snd (A : Type) (xs : list A) : map snd (enumerate xs) = xs.
Proof.
  unfold enumerate. generalize 0.
  induction xs as [|x xs IH]; intros k; simpl; [reflexivity|].
  now rewrite IH.
Qed.

Lemma llm_answers_length w ps raws w' :
  llm_answers ChatCompletion_create w ps raws w' -> length raws = length ps.
Proof. induction 1; simpl; congruence. Qed.

(** When the service answers every prompt and every answer gives a record,
    the loop returns the records, in the order of the groups. *)
Lemma feedback_loop_run (total : nat) (gs : list (nat * (GroupKey * DataFrame))) :
  forall raws rs acc s w',
    llm_answers ChatCompletion_create (world s) (map step_prompt gs) raws w' ->
    Forall2 (summarizes json_loads) (combine (map snd gs) raws) rs ->
    exists s',
      feedback_loop ChatCompletion_create json_loads total gs acc s = (Ok (acc ++ rs), s')
      /\ world s' = w'.
Proof.
  induction gs as [|[i [[inst course] g]] gs IH]; intros raws rs acc s w' Hrun Hrec.
  - inversion Hrun; subst. inversion Hrec; subst.
    exists s. rewrite app_nil_r. now split.
  - inversion Hrun as [|w0 p raw w1 ps raws' w2 Hcall Hrest]; subst.
    simpl in Hrec. inversion Hrec as [|x r xs rs' Hr Hrs]; subst.
    cbn [feedback_loop]. unfold bind at 1.
    destruct (feedback_step_cases total i inst course g s) as [s1 [E1 W1]].
    unfold step_prompt in Hcall. cbn [snd] in Hcall.
    rewrite Hcall in E1, W1. cbn [snd] in W1.
    unfold summarizes in Hr. rewrite Hr in E1. rewrite E1.
    rewrite <- W1 in Hrest.
    destruct (IH raws' rs' (acc ++ [r]) s1 w' Hrest Hrs) as [s' [E W]].
    exists s'. rewrite E, <- app_assoc. now split.
Qed.

(** Conversely, when the loop returns, the service answered every prompt
    and the records are those of the answers. *)
Lemma feedback_loop_inv (total : nat) (gs : list (nat * (GroupKey * DataFrame))) :
  forall acc s rs s',
    feedback_loop ChatCompletion_create json_loads total gs acc s = (Ok rs, s') ->
    exists raws rs',
      rs = acc ++ rs'
      /\ llm_answers ChatCompletion_create (world s) (map step_prompt gs) raws (world s')
      /\ Forall2 (summarizes json_loads) (combine (map snd gs) raws) rs'.
Proof.
  induction gs as [|[i [[inst course] g]] gs IH]; intros acc s rs s' H.
  - cbn in H. inversion H; subst.
    exists [], []. rewrite app_nil_r. repeat split; constructor.
  - cbn [feedback_loop] in H. unfold bind at 1 in H.
    destruct (feedback_step_cases total i inst course g s) as [s1 [E1 W1]].
    rewrite E1 in H.
    destruct (call_llm ChatCompletion_create (rendered_feedback_prompt g) (world s))
      as [[raw|e] w1] eqn:Hcall; [|discriminate].
    destruct (feedback_record inst course (extracted_feedback json_loads raw))
      as [r|e] eqn:Hr; [|discriminate].
    destruct (IH _ _ _ _ H) as [raws [rs' [-> [Hrun Hrec]]]].
    exists (raw :: raws), (r :: rs'). rewrite <- app_assoc.
    split; [reflexivity|]. cbn [snd] in W1. split.
    + simpl. econstructor; [exact Hcall|]. now rewrite <- W1.
    + simpl. constructor; assumption.
Qed.

(** An exception of the service in one step ends the loop with it. *)
Lemma feedback_loop_upstream (total : nat) (pre : list (nat * (GroupKey * DataFrame))) :
  forall ikg post raws rs acc s w1 e,
    llm_answers ChatCompletion_create (world s) (map step_prompt pre) raws w1 ->
    Forall2 (summarizes json_loads) (combine (map snd pre) raws) rs ->
    fst (call_llm ChatCompletion_create (step_prompt ikg) w1) = Raise e ->
    exists s',
      feedback_loop ChatCompletion_create json_loads total (pre ++ ikg :: post) acc s
      = (Raise e, s').
Proof.
  induction pre as [|[i [[inst course] g]] pre IH];
    intros ikg post raws rs acc s w1 e Hrun Hrec Hfail.
  - inversion Hrun; subst. destruct ikg as [i [[inst course] g]].
    cbn [app feedback_loop]. unfold bind at 1.
    destruct (feedback_step_cases total i inst course g s) as [s1 [E1 W1]].
    unfold step_prompt in Hfail. cbn [snd] in Hfail.
    destruct (call_llm ChatCompletion_create (rendered_feedback_prompt g) (world s))
      as [[raw|e'] w2]; cbn [fst] in Hfail; [discriminate|].
    inversion Hfail; subst. rewrite E1. now exists s1.
  - inversion Hrun as [|w0 p raw w2 ps raws' w3 Hcall Hrest]; subst.
    simpl in Hrec. inversion Hrec as [|x r xs rs' Hr Hrs]; subst.
    cbn [app feedback_loop]. unfold bind at 1.
    destruct (feedback_step_cases total i inst course g s) as [s1 [E1 W1]].
    unfold step_prompt in Hcall. cbn [snd] in Hcall.
    rewrite Hcall in E1, W1. cbn [snd] in W1.
    unfold summarizes in Hr. rewrite Hr in E1. rewrite E1.
    rewrite <- W1 in Hrest.
    exact (IH ikg post raws' rs' (acc ++ [r]) s1 w1 e Hrest Hrs Hfail).
Qed.

Lemma step_prompts_enumerate (df : DataFrame) :
  map step_prompt (enumerate (groupby df)) = feedback_prompts df.
Proof.
  unfold feedback_prompts. rewrite <- (enumerate_snd (groupby df)) at 2.
  rewrite map_map. reflexivity.
Qed.

Lemma process_feedback_unfold (df : DataFrame) s :
  process_feedback ChatCompletion_create json_loads df s
  = match feedback_loop ChatCompletion_create json_loads (length (groupby df))
            (enumerate (groupby df)) [] (log (log s [UiNewProgress 0]) [UiNewEmpty]) with
    | (Ok rs, s2) =>
        (Ok rs,
         log s2 [ UiStatusText (lit "Analysis complete!"); UiSleep 1;
                  UiClearProgress; UiClearStatus ])
    | (Raise e, s2) => (Raise e, s2)
    end.
Proof.
  unfold process_feedback. unfold bind at 1, ui at 1. unfold bind at 1, ui at 1.
  unfold bind at 1. unfold log. cbn [world page].
  destruct (feedback_loop _ _ _ _ _ _) as [[rs|e] s2]; [|reflexivity].
  unfold bind, ui, ret. cbn [world page]. now rewrite <- !app_assoc.
Qed.

Lemma process_feedback_loop (df : DataFrame) s :
  exists s1,
    world s1 = world s /\
    match feedback_loop ChatCompletion_create json_loads (length (groupby df))
            (enumerate (groupby df)) [] s1 with
    | (Ok rs, s2) =>
        exists s', process_feedback ChatCompletion_create json_loads df s = (Ok rs, s')
                   /\ world s' = world s2
    | (Raise e, s2) =>
        process_feedback ChatCompletion_create json_loads df s = (Raise e, s2)
    end.
Proof.
  exists (log (log s [UiNewProgress 0]) [UiNewEmpty]).
  split; [reflexivity|].
  rewrite process_feedback_unfold.
  destruct (feedback_loop _ _ _ _ _ _) as [[rs|e] s2].
  - eexists. split; reflexivity.
  - reflexivity.
Qed.

(** The run as a whole: the service answers every prompt and every answer
    gives a record, exactly when [process_feedback] returns the records. *)
Lemma process_feedback_run (df : DataFrame) (raws : list str) (rs : list dict) s w' :
  llm_answers ChatCompletion_create (world s) (feedback_prompts df) raws w' ->
  Forall2 (summarizes json_loads) (combine (groupby df) raws) rs ->
  exists s', process_feedback ChatCompletion_create json_loads df s = (Ok rs, s')
             /\ world s' = w'.
Proof.
  intros Hrun Hrec.
  destruct (process_feedback_loop df s) as [s1 [W1 H]].
  rewrite <- step_prompts_enumerate, <- W1 in Hrun.
  rewrite <- (enumerate_snd (groupby df)) in Hrec.
  destruct (feedback_loop_run (length (groupby df)) _ [] _ Hrun Hrec) as [s2 [E W]].
  rewrite E in H. destruct H as [s' [H Hw]].
  exists s'. split; [exact H|]. now rewrite Hw.
Qed.

Lemma process_feedback_inv (df : DataFrame) (rs : list dict) s s' :
  process_feedback ChatCompletion_create json_loads df s = (Ok rs, s') ->
  exists raws,
    llm_answers ChatCompletion_create (world s) (feedback_prompts df) raws (world s')
    /\ Forall2 (summarizes json_loads) (combine (groupby df) raws) rs.
Proof.
  intros H.
  destruct (process_feedback_loop df s) as [s1 [W1 H1]].
  destruct (feedback_loop _ _ _ _ _ _) as [[rs1|e] s2] eqn:E.
  - destruct H1 as [s3 [H3 W3]]. rewrite H3 in H. inversion H; subst.
    destruct (feedback_loop_inv _ _ _ _ E) as [raws [rs' [-> [Hrun Hrec]]]].
    exists raws. rewrite step_prompts_enumerate, W1, <- W3 in Hrun.
    rewrite enumerate_snd in Hrec. now split.
  - rewrite H1 in H. discriminate.
Qed.

Lemma process_feedback_upstream (df : DataFrame) pre kg post raws rs s w1 e :
  groupby df = pre ++ kg :: post ->
  llm_answers ChatCompletion_create (world s)
    (map (fun kg => rendered_feedback_prompt (snd kg)) pre) raws w1 ->
  Forall2 (summarizes json_loads) (combine pre raws) rs ->
  fst (call_llm ChatCompletion_create (rendered_feedback_prompt (snd kg)) w1) = Raise e ->
  exists s', process_feedback ChatCompletion_create json_loads df s = (Raise e, s').
Proof.
  intros Hsplit Hrun Hrec Hfail.
  destruct (process_feedback_loop df s) as [s1 [W1 H1]].
  assert (Hen : exists ipre ikg ipost,
             enumerate (groupby df) = ipre ++ ikg :: ipost
             /\ map snd ipre = pre /\ snd ikg = kg).
  { pose proof (enumerate_snd (groupby df)) as Hs. rewrite Hsplit in Hs at 2.
    apply map_eq_app in Hs. destruct Hs as [ipre [rest [E [Hp Hr]]]].
    apply map_eq_cons in Hr. destruct Hr as [ikg [ipost [-> [Hk _]]]].
    now exists ipre, ikg, ipost. }
  destruct Hen as [ipre [ikg [ipost [E [Hp Hk]]]]]. subst pre kg.
  rewrite map_map in Hrun. rewrite <- W1 in Hrun.
  destruct (feedback_loop_upstream (length (groupby df)) ipre ikg ipost [] s1
              Hrun Hrec Hfail) as [s2 E2].
  rewrite E, E2 in H1. now exists s2.
Qed.

End FeedbackFacts.

(** ** Grouping *)

Lemma key_eqb_eq (a b : GroupKey) : key_eqb a b = true <-> a = b.
Proof.
  destruct a as [a1 a2], b as [b1 b2]. unfold key_eqb. simpl.
  rewrite andb_true_iff, !Z.eqb_eq. split; [intros [-> ->]; reflexivity|].
  intros H. inversion H. now split.
Qed.

Lemma key_lt_spec (a b : GroupKey) :
  key_lt a b <-> (fst a < fst b \/ (fst a = fst b /\ snd a < snd b))%Z.
Proof.
  unfold key_lt, key_ltb.
  rewrite orb_true_iff, andb_true_iff, !Z.ltb_lt, Z.eqb_eq. reflexivity.
Qed.

Lemma key_lt_irrefl (a : GroupKey) : ~ key_lt a a.
Proof. rewrite key_lt_spec. lia. Qed.

Lemma key_lt_trans (a b c : GroupKey) : key_lt a b -> key_lt b c -> key_lt a c.
Proof. rewrite !key_lt_spec. lia. Qed.

Lemma key_trichotomy (a b : GroupKey) :
  key_ltb a b = false -> key_eqb a b = false -> key_lt b a.
Proof.
  intros Hlt Heq. rewrite key_lt_spec.
  assert (H1 : ~ key_lt a b) by (unfold key_lt; now rewrite Hlt).
  assert (H2 : a <> b) by (rewrite <- key_eqb_eq; now rewrite Heq).
  rewrite key_lt_spec in H1.
  destruct a as [a1 a2], b as [b1 b2]. simpl in *.
  destruct (Z.eq_dec a1 b1) as [->|]; [|lia].
  destruct (Z.eq_dec a2 b2) as [->|]; [now contradiction H2|lia].
Qed.

Lemma insert_key_In (k k0 : GroupKey) (ks : list GroupKey) :
  In k (insert_key k0 ks) <-> k = k0 \/ In k ks.
Proof.
  induction ks as [|k' ks IH]; simpl; [intuition congruence|].
  destruct (key_ltb k0 k') eqn:Hlt; simpl; [intuition congruence|].
  destruct (key_eqb k0 k') eqn:Heq; simpl.
  - apply key_eqb_eq in Heq. subst. intuition congruence.
  - rewrite IH. intuition congruence.
Qed.

Lemma insert_key_sorted (k : GroupKey) (ks : list GroupKey) :
  StronglySorted key_lt ks -> StronglySorted key_lt (insert_key k ks).
Proof.
  induction 1 as [|k' ks Hs IH Hall]; simpl.
  - repeat constructor.
  - destruct (key_ltb k k') eqn:Hlt.
    + constructor; [now constructor|].
      constructor; [exact Hlt|].
      eapply Forall_impl; [|exact Hall].
      intros x Hx. now apply (key_lt_trans (b := k')).
    + destruct (key_eqb k k') eqn:Heq; [now constructor|].
      constructor; [exact IH|].
      apply Forall_forall. intros x Hx. apply insert_key_In in Hx.
      destruct Hx as [->|Hx]; [now apply key_trichotomy|].
      rewrite Forall_forall in Hall. now apply Hall.
Qed.

Lemma group_keys_sorted (df : DataFrame) : StronglySorted key_lt (group_keys df).
Proof.
  unfold group_keys. induction (map row_key df) as [|k ks IH]; simpl.
  - constructor.
  - now apply insert_key_sorted.
Qed.

Lemma group_keys_In (df : DataFrame) (k : GroupKey) :
  In k (group_keys df) <-> exists r, In r df /\ row_key r = k.
Proof.
  assert (H : In k (group_keys df) <-> In k (map row_key df)).
  { unfold group_keys.
    induction (map row_key df) as [|k' ks IH]; simpl; [tauto|].
    rewrite insert_key_In, IH. intuition congruence. }
  rewrite H, in_map_iff. split; intros [r [A B]]; exists r; now split.
Qed.

Lemma strongly_sorted_nodup (ks : list GroupKey) :
  StronglySorted key_lt ks -> NoDup ks.
Proof.
  induction 1 as [|k ks Hs IH Hall]; constructor; [|exact IH].
  intros Hin. rewrite Forall_forall in Hall.
  exact (key_lt_irrefl (Hall k Hin)).
Qed.

Lemma groupby_keys (df : DataFrame) : map fst (groupby df) = group_keys df.
Proof. unfold groupby. rewrite map_map. simpl. apply map_id. Qed.

Lemma groupby_rows (df : DataFrame) :
  Forall (fun kg => snd kg = filter (fun r => key_eqb (row_key r) (fst kg)) df) (groupby df).
Proof.
  unfold groupby. apply Forall_forall. intros kg Hin.
  apply in_map_iff in Hin. destruct Hin as [k [<- _]]. reflexivity.
Qed.

(** ** Records *)

Lemma feedback_record_dict (inst course : Z) (d : dict) :
  feedback_record inst course (JDict d)
  = Ok [ (lit "instructor_id", JInt inst);
         (lit "course_id", JInt course);
         (lit "summary", dict_get d (lit "summary"));
         (lit "sentiment", dict_get d (lit "sentiment"));
         (lit "actions", dict_get d (lit "actions"));
         (lit "examples", dict_get d (lit "example_quotes")) ].
Proof. reflexivity. Qed.

Lemma feedback_record_inv (inst course : Z) (parsed : json) (r : dict) :
  feedback_record inst course parsed = Ok r ->
  exists d, parsed = JDict d /\ feedback_record inst course (JDict d) = Ok r.
Proof. destruct parsed; try discriminate. intros H. now exists d. Qed.

Lemma feedback_record_key (inst course : Z) (parsed : json) (r : dict) :
  feedback_record inst course parsed = Ok r ->
  record_key r = Some (json_key (inst, course)).
Proof.
  intros H. apply feedback_record_inv in H. destruct H as [d [_ H]].
  rewrite feedback_record_dict in H. inversion H. reflexivity.
Qed.

Lemma summarizes_keys (json_loads : str -> outcome json)
    (gs : list (GroupKey * DataFrame)) :
  forall raws rs,
    length raws = length gs ->
    Forall2 (summarizes json_loads) (combine gs raws) rs ->
    map record_key rs = map (fun kg => Some (json_key (fst kg))) gs.
Proof.
  induction gs as [|[[inst course] g] gs IH]; intros [|raw raws] rs Hlen Hrec;
    simpl in *; try discriminate.
  - inversion Hrec. reflexivity.
  - inversion Hrec as [|x r xs rs' Hr Hrs]; subst. simpl.
    unfold summarizes in Hr. rewrite (feedback_record_key _ _ _ Hr).
    f_equal. apply IH with (raws := raws); [lia|exact Hrs].
Qed.

(** ** The claims about extraction *)

Section ExtractionClaims.

Variable World : Type.
Variable ChatCompletion_create : ChatRequest -> World -> outcome ChatResponse * World.
Variable json_loads : str -> outcome json.

Implicit Types (s : state World) (w : World).

(** [analyze_transcript] asks the service once, with the rendered lecture
    prompt, and hands the answer to the [try] block. *)
Lemma analyze_transcript_answered (transcript_text raw : str) s w1 :
  call_llm ChatCompletion_create (rendered_lecture_prompt transcript_text) (world s)
  = (Ok raw, w1) ->
  analyze_transcript ChatCompletion_create json_loads transcript_text s
  = parse_critique json_loads raw {| world := w1; page := page s |}.
Proof.
  intros H. unfold analyze_transcript, bind at 1, lift at 1.
  rewrite lecture_prompt_rendered. unfold bind, external. now rewrite H.
Qed.

(** C2 (amended). When decoding the cleaned answer raises, neither site lets
    the exception through.  The feedback site falls back to the mapping
    whose only key is [summary], bound to the raw answer unchanged, so that
    the record of the group has the raw answer as its summary and null for
    sentiment, actions and examples; the failure is reported on the page.
    The lecture site falls back to a mapping whose summary is the fixed text
    ["Error parsing response"] and which carries the message of the
    exception under [error]; the raw answer is written to the page. *)
Theorem parse_failure_falls_back (raw : str) (e : exn) (inst course : Z) s :
  json_loads (clean_response raw) = Raise e ->
  (parse_feedback json_loads raw s
   = (Ok (JDict [(lit "summary", JStr raw)]),
      log s [UiError (lit "Error parsing feedback response: " ++ exn_message e)])
   /\ feedback_record inst course (JDict [(lit "summary", JStr raw)])
      = Ok [ (lit "instructor_id", JInt inst);
             (lit "course_id", JInt course);
             (lit "summary", JStr raw);
             (lit "sentiment", JNull);
             (lit "actions", JNull);
             (lit "examples", JNull) ])
  /\
  parse_critique json_loads raw s
  = (Ok (JDict [ (lit "summary", JStr (lit "Error parsing response"));
                 (lit "error", JStr (exn_message e)) ]),
     log s [ UiError (lit "Error parsing LLM response: " ++ exn_message e);
             UiText (lit "Raw response:"); UiText raw ]).
Proof.
  intros H. split; [split|].
  - exact (parse_feedback_raise json_loads raw s H).
  - reflexivity.
  - exact (parse_critique_raise json_loads raw s H).
Qed.

(** X24. For a text [c] of a JSON object that the decoder reads as the
    object [d], every presentation of [c] that is bare or uses the markers
    [```json] and [```] (both, or either one alone, with any whitespace
    around the parts) is cleaned to [c] itself, and both sites recover [d]
    from it, leaving the page as it was. *)
Theorem json_fence_recovers_object (c raw : str) (d : dict) s :
  object_text c ->
  json_loads c = Ok (JDict d) ->
  json_fenced c raw ->
  clean_response raw = c
  /\ parse_feedback json_loads raw s = (Ok (JDict d), s)
  /\ parse_critique json_loads raw s = (Ok (JDict d), s).
Proof.
  intros Hc Hd Hw.
  pose proof (clean_response_fenced Hc Hw) as E.
  split; [exact E|]. rewrite <- E in Hd.
  split; [now apply parse_feedback_ok|now apply parse_critique_ok].
Qed.

(** C4 (amended). At the feedback site a decoded object [d] gives a record
    with exactly the keys instructor_id, course_id, summary, sentiment,
    actions and examples: each of the last four is [d.get] of summary,
    sentiment, actions and example_quotes, hence null when the key is
    missing from [d] or bound to null in it, and no other key of [d] is
    carried over.  At the lecture site the decoded object is returned as it
    is: all its keys are kept and no missing key is added. *)
Theorem extraction_keys :
  (forall (inst course : Z) (d : dict),
     exists r,
       feedback_record inst course (JDict d) = Ok r
       /\ dict_keys r = [ lit "instructor_id"; lit "course_id"; lit "summary";
                          lit "sentiment"; lit "actions"; lit "examples" ]
       /\ dict_lookup r (lit "summary") = Some (dict_get d (lit "summary"))
       /\ dict_lookup r (lit "sentiment") = Some (dict_get d (lit "sentiment"))
       /\ dict_lookup r (lit "actions") = Some (dict_get d (lit "actions"))
       /\ dict_lookup r (lit "examples") = Some (dict_get d (lit "example_quotes")))
  /\ (forall (d : dict) (k : str),
        (dict_lookup d k = None -> dict_get d k = JNull)
        /\ (dict_lookup d k = Some JNull -> dict_get d k = JNull))
  /\ (forall (transcript_text raw : str) (d : dict) s w1,
        call_llm ChatCompletion_create (rendered_lecture_prompt transcript_text) (world s)
        = (Ok raw, w1) ->
        json_loads (clean_response raw) = Ok (JDict d) ->
        analyze_transcript ChatCompletion_create json_loads transcript_text s
        = (Ok (JDict d), {| world := w1; page := page s |})).
Proof.
  split; [|split].
  - intros inst course d. eexists. split; [apply feedback_record_dict|].
    repeat split.
  - intros d k. unfold dict_get. split; intros ->; reflexivity.
  - intros t raw d s w1 Hcall H.
    rewrite (@analyze_transcript_answered t raw s w1 Hcall).
    now apply parse_critique_ok.
Qed.

(** C10. When decoding the answer to the lecture prompt raises,
    [analyze_transcript] returns the mapping with exactly two keys: summary,
    bound to the fixed text ["Error parsing response"] whatever the answer
    was, and error, bound to the message of the exception.  None of the
    other fields of a critique is present. *)
Theorem analyze_transcript_parse_failure (transcript_text raw : str) (e : exn) s w1 :
  call_llm ChatCompletion_create (rendered_lecture_prompt transcript_text) (world s)
  = (Ok raw, w1) ->
  json_loads (clean_response raw) = Raise e ->
  exists (d : dict) s',
    analyze_transcript ChatCompletion_create json_loads transcript_text s
    = (Ok (JDict d), s')
    /\ world s' = w1
    /\ dict_keys d = [lit "summary"; lit "error"]
    /\ dict_lookup d (lit "summary") = Some (JStr (lit "Error parsing response"))
    /\ dict_lookup d (lit "error") = Some (JStr (exn_message e))
    /\ dict_lookup d (lit "clarity_structure") = None
    /\ dict_lookup d (lit "missing_content") = None
    /\ dict_lookup d (lit "factual_issues") = None
    /\ dict_lookup d (lit "pedagogical_suggestions") = None.
Proof.
  intros Hcall Hfail.
  rewrite (@analyze_transcript_answered transcript_text raw s w1 Hcall).
  rewrite (parse_critique_raise json_loads raw _ Hfail).
  eexists. eexists. split; [reflexivity|]. repeat split.
Qed.

End ExtractionClaims.

(** ** The claims about the feedback run *)

Section FeedbackClaims.

Variable World : Type.
Variable ChatCompletion_create : ChatRequest -> World -> outcome ChatResponse * World.
Variable json_loads : str -> outcome json.

Implicit Types (s : state World) (w : World).

Lemma usable_extracted (raw : str) :
  usable_answer json_loads raw -> exists d, extracted_feedback json_loads raw = JDict d.
Proof.
  unfold usable_answer, extracted_feedback. intros H.
  destruct (json_loads (clean_response raw)) as [v|e].
  - now apply H.
  - now eexists.
Qed.

Lemma summarize_all (gs : list (GroupKey * DataFrame)) :
  forall raws,
    length raws = length gs ->
    Forall (usable_answer json_loads) raws ->
    exists rs, Forall2 (summarizes json_loads) (combine gs raws) rs.
Proof.
  induction gs as [|[[inst course] g] gs IH]; intros [|raw raws] Hlen Hall;
    simpl in *; try discriminate.
  - exists []. constructor.
  - inversion Hall as [|x xs Hraw Hraws]; subst.
    destruct (IH raws ltac:(lia) Hraws) as [rs Hrs].
    destruct (usable_extracted Hraw) as [d Hd].
    eexists (_ :: rs). constructor; [|exact Hrs].
    unfold summarizes. rewrite Hd. apply feedback_record_dict.
Qed.

(** The record of an answer that does not decode. *)
Lemma summarizes_fallback (kg : GroupKey * DataFrame) (raw : str) (r : dict) (e : exn) :
  summarizes json_loads (kg, raw) r ->
  json_loads (clean_response raw) = Raise e ->
  dict_lookup r (lit "summary") = Some (JStr raw)
  /\ dict_lookup r (lit "sentiment") = Some JNull
  /\ dict_lookup r (lit "actions") = Some JNull
  /\ dict_lookup r (lit "examples") = Some JNull.
Proof.
  destruct kg as [[inst course] g]. unfold summarizes, extracted_feedback.
  intros H E. rewrite E in H. unfold feedback_fallback in H.
  rewrite feedback_record_dict in H. inversion H. repeat split.
Qed.

Lemma Forall2_combine_snd (A B C : Type) (P : A * B -> C -> Prop) (Q : B -> C -> Prop)
    (xs : list A) :
  (forall x y z, P (x, y) z -> Q y z) ->
  forall ys zs,
    length ys = length xs -> Forall2 P (combine xs ys) zs -> Forall2 Q ys zs.
Proof.
  intros HPQ. induction xs as [|x xs IH]; intros [|y ys] zs Hlen H;
    simpl in *; try discriminate.
  - inversion H. constructor.
  - inversion H; subst. constructor; [eapply HPQ; eassumption|].
    apply IH; [lia|assumption].
Qed.

(** C1 (amended). A failure of decoding is isolated, a failure of the
    completion call is not.  When the service answers the prompt of each of
    the N groups and every answer that decodes is an object,
    [process_feedback] returns exactly N records, one per group in the order
    of the groups, and the record of a group whose answer does not decode
    has the raw answer as its summary and null for sentiment, actions and
    examples.  When the completion call of one group raises, the exception
    is not caught: [process_feedback] ends with it and returns no record. *)
Theorem process_feedback_isolates_parse_failures :
  (forall (df : DataFrame) (raws : list str) s w',
     llm_answers ChatCompletion_create (world s) (feedback_prompts df) raws w' ->
     Forall (usable_answer json_loads) raws ->
     exists rs s',
       process_feedback ChatCompletion_create json_loads df s = (Ok rs, s')
       /\ world s' = w'
       /\ length rs = length (group_keys df)
       /\ NoDup (group_keys df)
       /\ (forall k, In k (group_keys df) <-> exists r, In r df /\ row_key r = k)
       /\ map record_key rs = map (fun k => Some (json_key k)) (group_keys df)
       /\ Forall2 (fun raw r =>
                     forall e, json_loads (clean_response raw) = Raise e ->
                       dict_lookup r (lit "summary") = Some (JStr raw)
                       /\ dict_lookup r (lit "sentiment") = Some JNull
                       /\ dict_lookup r (lit "actions") = Some JNull
                       /\ dict_lookup r (lit "examples") = Some JNull)
                  raws rs)
  /\
  (forall (df : DataFrame) pre kg post (raws : list str) s w1 (e : exn),
     groupby df = pre ++ kg :: post ->
     llm_answers ChatCompletion_create (world s)
       (map (fun kg => rendered_feedback_prompt (snd kg)) pre) raws w1 ->
     Forall (usable_answer json_loads) raws ->
     fst (call_llm ChatCompletion_create (rendered_feedback_prompt (snd kg)) w1) = Raise e ->
     exists s', process_feedback ChatCompletion_create json_loads df s = (Raise e, s')).
Proof.
  split.
  - intros df raws s w' Hrun Hall.
    pose proof (llm_answers_length Hrun) as Hlen.
    unfold feedback_prompts in Hlen. rewrite length_map in Hlen.
    destruct (summarize_all (groupby df) Hlen Hall) as [rs Hrs].
    destruct (process_feedback_run df s Hrun Hrs) as [s' [E W]].
    exists rs, s'. split; [exact E|]. split; [exact W|].
    pose proof (summarizes_keys (groupby df) raws Hlen Hrs) as Hk.
    split; [|split; [|split; [|split; [rewrite <- groupby_keys, map_map; exact Hk|]]]].
    + rewrite <- groupby_keys.
      rewrite <- (length_map record_key), Hk, !length_map. reflexivity.
    + apply strongly_sorted_nodup, group_keys_sorted.
    + apply group_keys_In.
    + apply (Forall2_combine_snd (P := summarizes json_loads)) with (xs := groupby df);
        [|exact Hlen|exact Hrs].
      intros x y z Hs e He. eapply summarizes_fallback; eassumption.
  - intros df pre kg post raws s w1 e Hsplit Hrun Hall Hfail.
    pose proof (llm_answers_length Hrun) as Hlen. rewrite length_map in Hlen.
    destruct (summarize_all pre Hlen Hall) as [rs Hrs].
    exact (process_feedback_upstream df pre kg post s Hsplit Hrun Hrs Hfail).
Qed.

(** C5 (amended). The records of [process_feedback] come in ascending order
    of their (instructor_id, course_id) keys, compared as pairs, whatever
    the order of the rows: the keys of the records are the distinct keys of
    the frame, each once, in strictly increasing order. *)
Theorem records_in_ascending_key_order (df : DataFrame) (rs : list dict) s s' :
  process_feedback ChatCompletion_create json_loads df s = (Ok rs, s') ->
  map record_key rs = map (fun k => Some (json_key k)) (group_keys df)
  /\ StronglySorted key_lt (group_keys df)
  /\ NoDup (group_keys df)
  /\ (forall k, In k (group_keys df) <-> exists r, In r df /\ row_key r = k).
Proof.
  intros H.
  destruct (process_feedback_inv ChatCompletion_create json_loads df s H)
    as [raws [Hrun Hrs]].
  pose proof (llm_answers_length Hrun) as Hlen.
  unfold feedback_prompts in Hlen. rewrite length_map in Hlen.
  split; [|split; [|split]].
  - rewrite (summarizes_keys (groupby df) raws Hlen Hrs), <- groupby_keys, map_map.
    reflexivity.
  - apply group_keys_sorted.
  - apply strongly_sorted_nodup, group_keys_sorted.
  - apply group_keys_In.
Qed.

(** C8. The record appended for a group carries the instructor_id and the
    course_id of the group's key; the answer it is built from is the answer
    to the prompt made of the feedback texts of the rows of that group, each
    prefixed with ["- "] and joined by line breaks; and its examples field
    is the value of example_quotes in the extracted mapping, which has no
    key of that name itself. *)
Theorem feedback_summary_fields (df : DataFrame) (raws : list str) s w' :
  llm_answers ChatCompletion_create (world s)
    (map (fun kg =>
            FEEDBACK_PROMPT_head
            ++ firstn (Z.to_nat 2000)
                 (join nl (map (fun x => lit "- " ++ x) (map feedback_text (snd kg))))
            ++ nl)
         (groupby df))
    raws w' ->
  Forall (usable_answer json_loads) raws ->
  exists rs s',
    process_feedback ChatCompletion_create json_loads df s = (Ok rs, s')
    /\ Forall2
         (fun (kg_raw : (GroupKey * DataFrame) * str) (r : dict) =>
            let '((inst, course, g), raw) := kg_raw in
            g = filter (fun x => key_eqb (row_key x) (inst, course)) df
            /\ dict_lookup r (lit "instructor_id") = Some (JInt inst)
            /\ dict_lookup r (lit "course_id") = Some (JInt course)
            /\ exists d,
                 extracted_feedback json_loads raw = JDict d
                 /\ dict_lookup r (lit "summary") = Some (dict_get d (lit "summary"))
                 /\ dict_lookup r (lit "sentiment") = Some (dict_get d (lit "sentiment"))
                 /\ dict_lookup r (lit "actions") = Some (dict_get d (lit "actions"))
                 /\ dict_lookup r (lit "examples") = Some (dict_get d (lit "example_quotes"))
                 /\ dict_lookup r (lit "example_quotes") = None)
         (combine (groupby df) raws) rs.
Proof.
  intros Hrun Hall.
  change (llm_answers ChatCompletion_create (world s) (feedback_prompts df) raws w') in Hrun.
  pose proof (llm_answers_length Hrun) as Hlen.
  unfold feedback_prompts in Hlen. rewrite length_map in Hlen.
  destruct (summarize_all (groupby df) Hlen Hall) as [rs Hrs].
  destruct (process_feedback_run df s Hrun Hrs) as [s' [E W]].
  exists rs, s'. split; [exact E|].
  assert (Hin : Forall (fun kgr => In (fst kgr) (groupby df)) (combine (groupby df) raws)).
  { apply Forall_forall. intros [kg raw] Hin. now apply in_combine_l in Hin. }
  pose proof (groupby_rows df) as Hrows. rewrite Forall_forall in Hrows.
  clear - Hrs Hin Hrows.
  induction Hrs as [|[[[inst course] g] raw] r xs rs' Hr Hrs IH]; [constructor|].
  inversion Hin as [|x0 xs0 Hx Hxs]; subst.
  constructor; [|now apply IH].
  split; [exact (Hrows _ Hx)|].
  unfold summarizes in Hr. apply feedback_record_inv in Hr.
  destruct Hr as [d [Hd Hr]]. rewrite feedback_record_dict in Hr. inversion Hr.
  split; [reflexivity|]. split; [reflexivity|].
  exists d. repeat split. exact Hd.
Qed.

End FeedbackClaims.

(** ** The claim about the fetched transcript *)

Section TranscriptClaims.

Variable World : Type.
Variable YouTubeTranscriptApi_fetch : str -> World -> outcome (list Segment) * World.

Implicit Types (s : state World) (w : World).

Lemma truthy_strip (t : str) : truthy (strip t) = negb (all_space t).
Proof.
  pose proof (strip_blank t) as H.
  destruct (truthy (strip t)), (all_space t); try reflexivity.
  - destruct H as [_ H]. discriminate H. reflexivity.
  - destruct H as [H _]. discriminate H. reflexivity.
Qed.

Lemma transcript_of_nonblank (segs : list Segment) :
  transcript_of segs
  = join (lit " ") (map text (filter (fun seg => negb (all_space (text seg))) segs)).
Proof.
  unfold transcript_of. do 2 f_equal. apply filter_ext.
  intros seg. apply truthy_strip.
Qed.

Lemma truncate_Z (T : str) (L : Z) :
  (0 <= L)%Z ->
  truncate T L
  = if (Z.of_nat (length T) <=? L)%Z then T
    else firstn (Z.to_nat L) T ++ truncation_marker.
Proof.
  intros HL. rewrite <- (Z2Nat.id L HL) at 1.
  destruct (Z.leb_spec (Z.of_nat (length T)) L).
  - apply truncate_short. lia.
  - apply truncate_long. lia.
Qed.

(** C9 (amended). The fetched transcript is the texts of the caption
    segments that are not blank, in order, joined by single spaces; a
    segment whose text is empty or only whitespace is left out.  The cap of
    60000 characters, with its marker, is applied to that text, and the
    lecture template cuts the capped text to its own budget afterwards. *)
Theorem fetched_transcript_joins_nonblank_segments
    (video_id : str) (segs : list Segment) s w' :
  YouTubeTranscriptApi_fetch video_id (world s) = (Ok segs, w') ->
  exists (transcript : str) s',
    fetch_youtube_transcript YouTubeTranscriptApi_fetch video_id default_max_chars s
    = (Ok transcript, s')
    /\ world s' = w'
    /\ (let joined :=
          join (lit " ")
            (map text (filter (fun seg => negb (all_space (text seg))) segs)) in
        transcript
        = if (Z.of_nat (length joined) <=? 60000)%Z then joined
          else firstn (Z.to_nat 60000) joined ++ lit " ...[truncated]")
    /\ lecture_prompt transcript
       = Ok (LECTURE_PROMPT_head ++ firstn (Z.to_nat 5000) transcript ++ nl).
Proof.
  intros H. unfold fetch_youtube_transcript, bind at 1, external. rewrite H.
  unfold bind, ui, ret. eexists. eexists. split; [reflexivity|].
  split; [reflexivity|]. split; [|apply lecture_prompt_rendered].
  cbv zeta. rewrite <- transcript_of_nonblank.
  apply truncate_Z. unfold default_max_chars. lia.
Qed.

End TranscriptClaims.

(** * The program on concrete inputs *)

(** The first scenario of the specification: a fenced answer with two of
    the four keys. *)
Example scenario_fenced_answer :
  Decoder.loads (clean_response scenario_answer)
  = Ok (JDict [(lit "summary", JStr (lit "ok")); (lit "sentiment", JStr (lit "positive"))])
  /\ feedback_record 1 10 (extracted_feedback Decoder.loads scenario_answer)
     = Ok [ (lit "instructor_id", JInt 1); (lit "course_id", JInt 10);
            (lit "summary", JStr (lit "ok")); (lit "sentiment", JStr (lit "positive"));
            (lit "actions", JNull); (lit "examples", JNull) ].
Proof. split; vm_compute; reflexivity. Qed.

(** The second scenario: an answer that is not JSON gives the fallback. *)
Example scenario_not_json :
  extracted_feedback Decoder.loads not_json = JDict [(lit "summary", JStr not_json)].
Proof. vm_compute. reflexivity. Qed.

(** The third scenario: two rows for each of two keys give two records. *)
Example scenario_two_records :
  exists r1 r2,
    run_process_feedback [Ok scenario_answer; Ok scenario_answer]
      [row 1 10 "a"; row 1 10 "b"; row 2 20 "c"; row 2 20 "d"] = Ok [r1; r2]
    /\ record_key r1 = Some (json_key (1, 10)%Z)
    /\ record_key r2 = Some (json_key (2, 20)%Z).
Proof.
  eexists. eexists. split; [vm_compute; reflexivity|]. split; reflexivity.
Qed.

(** An answer that decodes to something other than an object: [get] is
    missing and the exception leaves [process_feedback]. *)
Example answer_not_an_object :
  run_process_feedback [Ok (lit "[1, 2]")] [row 1 10 "a"]
  = Raise (AttributeError (JList [JInt 1; JInt 2]) (lit "get")).
Proof. vm_compute. reflexivity. Qed.

Lemma scripted_run (p1 p2 r1 r2 : str) :
  llm_answers scripted_create
    {| completions := [Ok r1; Ok r2]; captions := Ok [] |}
    [p1; p2] [r1; r2]
    {| completions := []; captions := Ok [] |}.
Proof.
  econstructor; [reflexivity|].
  econstructor; [reflexivity|].
  constructor.
Qed.

Lemma usable_not_json : usable_answer Decoder.loads not_json.
Proof. intros v H. vm_compute in H. discriminate H. Qed.

Lemma usable_empty_object : usable_answer Decoder.loads empty_object.
Proof. intros v H. vm_compute in H. inversion H. now exists []. Qed.

(** ** C7 *)

(** Two services that agree on the request of a step give the same step. *)
Lemma prompts_receive_pretruncated_text_witness :
  feedback_step scripted_create Decoder.loads 2 0 (1, 10)%Z [row 1 10 "very clear"]
    (script [Ok empty_object] (Ok []))
  = feedback_step
      (fun req w =>
         if str_eqb (model req) (lit "gpt-4o-mini") then scripted_create req w
         else (Raise APIConnectionError, w))
      Decoder.loads 2 0 (1, 10)%Z [row 1 10 "very clear"]
      (script [Ok empty_object] (Ok [])).
Proof.
  apply (proj1 (proj2 (proj2 prompts_receive_pretruncated_text))).
  reflexivity.
Defined.

(** ** C1 *)

(** C1 fails as stated.  With two groups and a completion call that raises
    for the second one, [process_feedback] returns no record at all: the
    exception leaves it.  When an answer does not decode, the summary of
    its group is the raw answer, not a description of the error.  And an
    answer that decodes to a list makes the lookups raise, which ends the
    batch as well. *)
Lemma completion_failure_ends_batch :
  length (group_keys two_groups) = 2
  /\ run_process_feedback [Ok empty_object; Raise APIConnectionError] two_groups
     = Raise APIConnectionError
  /\ ~ (exists rs,
          run_process_feedback [Ok empty_object; Raise APIConnectionError] two_groups = Ok rs
          /\ length rs = 2)
  /\ (exists e r1 r2,
        Decoder.loads (clean_response not_json) = Raise e
        /\ run_process_feedback [Ok not_json; Ok empty_object] two_groups = Ok [r1; r2]
        /\ dict_lookup r1 (lit "summary") = Some (JStr not_json)
        /\ not_json <> exn_message e)
  /\ run_process_feedback [Ok (lit "[1, 2]"); Ok empty_object] two_groups
     = Raise (AttributeError (JList [JInt 1; JInt 2]) (lit "get")).
Proof.
  split; [reflexivity|].
  assert (E : run_process_feedback [Ok empty_object; Raise APIConnectionError] two_groups
              = Raise APIConnectionError) by (vm_compute; reflexivity).
  split; [exact E|]. split.
  - intros [rs [H _]]. rewrite E in H. discriminate H.
  - split; [|vm_compute; reflexivity].
    eexists. eexists. eexists.
    split; [vm_compute; reflexivity|].
    split; [vm_compute; reflexivity|].
    split; [vm_compute; reflexivity|].
    vm_compute. discriminate.
Qed.

(** A run with an answer that does not decode, and a run whose second
    completion call raises. *)
Lemma process_feedback_isolates_parse_failures_witness :
  (exists rs s',
     process_feedback scripted_create Decoder.loads two_groups
       (script [Ok not_json; Ok empty_object] (Ok [])) = (Ok rs, s')
     /\ length rs = 2)
  /\ (exists s',
        process_feedback scripted_create Decoder.loads two_groups
          (script [Ok not_json; Raise APIConnectionError] (Ok [])) = (Raise APIConnectionError, s')).
Proof.
  split.
  - destruct (proj1 (process_feedback_isolates_parse_failures scripted_create Decoder.loads)
                two_groups [not_json; empty_object]
                (script [Ok not_json; Ok empty_object] (Ok []))
                {| completions := []; captions := Ok [] |})
      as (rs & s' & E & _ & L & _).
    + apply scripted_run.
    + repeat constructor; [apply usable_not_json|apply usable_empty_object].
    + exists rs, s'. split; [exact E|exact L].
  - apply (proj2 (process_feedback_isolates_parse_failures scripted_create Decoder.loads)
             two_groups
             [((1, 10)%Z, [row 1 10 "very clear"])]
             ((2, 20)%Z, [row 2 20 "too fast"; row 2 20 "more examples please"])
             []
             [not_json]
             (script [Ok not_json; Raise APIConnectionError] (Ok []))
             {| completions := [Raise APIConnectionError]; captions := Ok [] |}).
    + reflexivity.
    + econstructor; [reflexivity|constructor].
    + repeat constructor. apply usable_not_json.
    + reflexivity.
Defined.

(** ** C2 *)

(** C2 fails at the lecture site: for an answer that does not decode, the
    summary of the mapping [analyze_transcript] returns is the fixed text,
    not the raw answer, and the mapping has an error key. *)
Lemma critique_fallback_drops_raw_answer :
  exists e d,
    Decoder.loads (clean_response not_json) = Raise e
    /\ run_analyze_transcript (Ok not_json) (lit "a lecture") = Ok (JDict d)
    /\ dict_lookup d (lit "summary") = Some (JStr (lit "Error parsing response"))
    /\ dict_lookup d (lit "summary") <> Some (JStr not_json)
    /\ dict_keys d = [lit "summary"; lit "error"].
Proof.
  eexists. eexists.
  split; [vm_compute; reflexivity|].
  split; [vm_compute; reflexivity|].
  split; [vm_compute; reflexivity|].
  split; [vm_compute; discriminate|].
  vm_compute; reflexivity.
Qed.

(** Both fallbacks for an answer that does not decode. *)
Lemma parse_failure_falls_back_witness :
  exists e,
    Decoder.loads (clean_response not_json) = Raise e
    /\ fst (parse_feedback Decoder.loads not_json (script [] (Ok [])))
       = Ok (JDict [(lit "summary", JStr not_json)])
    /\ fst (parse_critique Decoder.loads not_json (script [] (Ok [])))
       = Ok (JDict [ (lit "summary", JStr (lit "Error parsing response"));
                     (lit "error", JStr (exn_message e)) ]).
Proof.
  eexists. split; [vm_compute; reflexivity|].
  match goal with
  | |- context [exn_message ?e] =>
      pose proof (@parse_failure_falls_back Script Decoder.loads not_json e 1%Z 10%Z
                    (script [] (Ok [])) ltac:(vm_compute; reflexivity)) as [[Hf _] Hc]
  end.
  rewrite Hf, Hc. split; reflexivity.
Defined.

(** ** C3 *)

(** C3.  The code misses the fence whose opening marker has no tag, against
    the claim and against the comment above the cleaning at both sites, which
    announces the removal of markdown code blocks if present.  On the empty
    object inside such a fence the closing marker is cut and the opening one
    stays, so that the cleaned text does not decode: the feedback site falls
    back to the raw answer and the lecture site to the fixed critique, and
    neither recovers the object that the bare text gives. *)
Lemma untagged_fence_not_recovered :
  object_text empty_object
  /\ Decoder.loads empty_object = Ok (JDict [])
  /\ clean_response untagged_fence = lit "```" ++ nl ++ lit "{}"
  /\ fst (parse_feedback Decoder.loads empty_object (script [] (Ok []))) = Ok (JDict [])
  /\ fst (parse_feedback Decoder.loads untagged_fence (script [] (Ok [])))
     = Ok (feedback_fallback untagged_fence)
  /\ fst (parse_critique Decoder.loads untagged_fence (script [] (Ok [])))
     = Ok (critique_fallback
             (Decoder.JSONDecodeError (lit "Expecting value")
                (lit "```" ++ nl ++ lit "{}") 0))
  /\ feedback_fallback untagged_fence <> JDict [].
Proof.
  split; [exists []; reflexivity|].
  split; [vm_compute; reflexivity|].
  split; [vm_compute; reflexivity|].
  split; [vm_compute; reflexivity|].
  split; [vm_compute; reflexivity|].
  split; [vm_compute; reflexivity|].
  discriminate.
Qed.

(** The empty object behind both markers. *)
Lemma json_fence_recovers_object_witness :
  clean_response tagged_fence = empty_object
  /\ parse_feedback Decoder.loads tagged_fence (script [] (Ok []))
     = (Ok (JDict []), script [] (Ok []))
  /\ parse_critique Decoder.loads tagged_fence (script [] (Ok []))
     = (Ok (JDict []), script [] (Ok [])).
Proof.
  apply (@json_fence_recovers_object Script Decoder.loads empty_object tagged_fence []).
  - exists []. reflexivity.
  - vm_compute. reflexivity.
  - apply (@fenced_both empty_object [] [] nl nl); reflexivity.
Defined.

(** ** C4 *)

(** C4 fails at the lecture site: the decoded object is returned with its
    unexpected key, and the expected keys it lacks are absent, not null. *)
Lemma critique_keeps_unexpected_keys :
  exists d,
    run_analyze_transcript (Ok extra_key_answer) (lit "a lecture") = Ok (JDict d)
    /\ dict_keys d = [lit "summary"; lit "extra"]
    /\ dict_lookup d (lit "extra") = Some (JInt 1)
    /\ dict_lookup d (lit "clarity_structure") = None.
Proof.
  eexists. split; [vm_compute; reflexivity|].
  repeat split.
Qed.

(** An object with an unexpected key, at both sites. *)
Lemma extraction_keys_witness :
  Decoder.loads (clean_response extra_key_answer)
  = Ok (JDict [(lit "summary", JStr (lit "ok")); (lit "extra", JInt 1)])
  /\ analyze_transcript scripted_create Decoder.loads (lit "a lecture")
       (script [Ok extra_key_answer] (Ok []))
     = (Ok (JDict [(lit "summary", JStr (lit "ok")); (lit "extra", JInt 1)]),
        script [] (Ok []))
  /\ exists r,
       feedback_record 1 10 (JDict [(lit "summary", JStr (lit "ok")); (lit "extra", JInt 1)])
       = Ok r
       /\ dict_keys r = [ lit "instructor_id"; lit "course_id"; lit "summary";
                          lit "sentiment"; lit "actions"; lit "examples" ].
Proof.
  assert (H : Decoder.loads (clean_response extra_key_answer)
              = Ok (JDict [(lit "summary", JStr (lit "ok")); (lit "extra", JInt 1)]))
    by (vm_compute; reflexivity).
  split; [exact H|]. split.
  - exact (proj2 (proj2 (@extraction_keys Script scripted_create Decoder.loads))
             (lit "a lecture") extra_key_answer _
             (script [Ok extra_key_answer] (Ok []))
             {| completions := []; captions := Ok [] |} eq_refl H).
  - destruct (proj1 (@extraction_keys Script scripted_create Decoder.loads) 1%Z 10%Z
                [(lit "summary", JStr (lit "ok")); (lit "extra", JInt 1)])
      as (r & E & K & _).
    exists r. split; [exact E|exact K].
Defined.

(** ** C5 *)

(** C5 fails as stated: the key (2, 20) is met first in the frame, yet the
    record of (1, 10) comes first. *)
Lemma first_seen_order_refuted :
  first_seen_keys two_groups = [(2, 20); (1, 10)]%Z
  /\ exists rs,
       run_process_feedback [Ok empty_object; Ok empty_object] two_groups = Ok rs
       /\ map record_key rs = [Some (json_key (1, 10)%Z); Some (json_key (2, 20)%Z)]
       /\ map record_key rs
          <> map (fun k => Some (json_key k)) (first_seen_keys two_groups).
Proof.
  split; [reflexivity|]. eexists.
  split; [vm_compute; reflexivity|].
  split; [reflexivity|].
  vm_compute. discriminate.
Qed.

(** A run on rows whose keys are met in descending order. *)
Lemma records_in_ascending_key_order_witness :
  exists rs s',
    process_feedback scripted_create Decoder.loads two_groups
      (script [Ok empty_object; Ok empty_object] (Ok [])) = (Ok rs, s')
    /\ map record_key rs = [Some (json_key (1, 10)%Z); Some (json_key (2, 20)%Z)].
Proof.
  eexists. eexists.
  assert (E : process_feedback scripted_create Decoder.loads two_groups
                (script [Ok empty_object; Ok empty_object] (Ok []))
              = (fst (process_feedback scripted_create Decoder.loads two_groups
                        (script [Ok empty_object; Ok empty_object] (Ok []))),
                 snd (process_feedback scripted_create Decoder.loads two_groups
                        (script [Ok empty_object; Ok empty_object] (Ok [])))))
    by apply surjective_pairing.
  split; [exact E|].
  exact (proj1 (records_in_ascending_key_order scripted_create Decoder.loads two_groups _ E)).
Defined.

(** ** C8 *)

(** A run with a fenced answer and one that does not decode. *)
Lemma feedback_summary_fields_witness :
  exists rs s',
    process_feedback scripted_create Decoder.loads two_groups
      (script [Ok scenario_answer; Ok not_json] (Ok [])) = (Ok rs, s')
    /\ map (fun r => dict_lookup r (lit "instructor_id")) rs = [Some (JInt 1); Some (JInt 2)]
    /\ map (fun r => dict_lookup r (lit "examples")) rs = [Some JNull; Some JNull].
Proof.
  destruct (@feedback_summary_fields Script scripted_create Decoder.loads two_groups
              [scenario_answer; not_json]
              (script [Ok scenario_answer; Ok not_json] (Ok []))
              {| completions := []; captions := Ok [] |})
    as (rs & s' & E & F).
  - apply scripted_run.
  - repeat constructor; [|apply usable_not_json].
    intros v H. vm_compute in H. inversion H. eexists. reflexivity.
  - exists rs, s'. split; [exact E|].
    change (combine (groupby two_groups) [scenario_answer; not_json])
      with [ (((1, 10)%Z, [row 1 10 "very clear"]), scenario_answer);
             (((2, 20)%Z, [row 2 20 "too fast"; row 2 20 "more examples please"]),
              not_json) ] in F.
    inversion F as [|x1 r1 xs1 rs1 H1 F1]; subst.
    inversion F1 as [|x2 r2 xs2 rs2 H2 F2]; subst.
    inversion F2; subst.
    destruct H1 as (_ & I1 & _ & d1 & D1 & _ & _ & _ & X1 & _).
    destruct H2 as (_ & I2 & _ & d2 & D2 & _ & _ & _ & X2 & _).
    vm_compute in D1. inversion D1; subst d1.
    vm_compute in D2. inversion D2; subst d2.
    simpl map. rewrite I1, I2, X1, X2. split; reflexivity.
Defined.

(** ** C9 *)

(** C9 fails as stated: a blank caption segment is not part of the
    transcript, which therefore is not the join of every segment. *)
Lemma blank_segment_dropped :
  run_fetch_youtube_transcript blank_segment_captions default_max_chars = Ok (lit "a b")
  /\ join (lit " ") blank_segment_captions = lit "a   b"
  /\ lit "a b" <> lit "a   b".
Proof.
  split; [vm_compute; reflexivity|].
  split; [reflexivity|].
  vm_compute. discriminate.
Qed.

(** Captions with a blank segment. *)
Lemma fetched_transcript_joins_nonblank_segments_witness :
  exists transcript s',
    fetch_youtube_transcript scripted_fetch (lit "video") default_max_chars
      (script [] (Ok (map (fun t => {| text := t |}) blank_segment_captions)))
    = (Ok transcript, s')
    /\ transcript = lit "a b".
Proof.
  destruct (@fetched_transcript_joins_nonblank_segments Script scripted_fetch (lit "video")
              (map (fun t => {| text := t |}) blank_segment_captions)
              (script [] (Ok (map (fun t => {| text := t |}) blank_segment_captions)))
              {| completions := [];
                 captions := Ok (map (fun t => {| text := t |}) blank_segment_captions) |}
              ltac:(reflexivity))
    as (transcript & s' & E & _ & T & _).
  exists transcript, s'. split; [exact E|]. rewrite T. reflexivity.
Defined.

(** ** C10 *)

(** The critique of an answer that does not decode. *)
Lemma analyze_transcript_parse_failure_witness :
  exists d s',
    analyze_transcript scripted_create Decoder.loads (lit "a lecture")
      (script [Ok not_json] (Ok [])) = (Ok (JDict d), s')
    /\ dict_lookup d (lit "summary") = Some (JStr (lit "Error parsing response"))
    /\ dict_lookup d (lit "error")
       = Some (JStr (lit "Expecting value: line 1 column 1 (char 0)")).
Proof.
  destruct (@analyze_transcript_parse_failure Script scripted_create Decoder.loads
              (lit "a lecture") not_json
              (Decoder.JSONDecodeError (lit "Expecting value") not_json 0)
              (script [Ok not_json] (Ok []))
              {| completions := []; captions := Ok [] |})
    as (d & s' & E & _ & _ & S & R & _).
  - reflexivity.
  - vm_compute. reflexivity.
  - exists d, s'. split; [exact E|]. split; [exact S|]. rewrite R. reflexivity.
Defined.

(** * Further facts *)

(** ** The cap on the transcript *)

Lemma truncate_nonneg_cases (T : str) (L : Z) :
  (0 <= L)%Z ->
  (length T <= Z.to_nat L /\ truncate T L = T)
  \/ (Z.to_nat L < length T
      /\ truncate T L = firstn (Z.to_nat L) T ++ truncation_marker).
Proof.
  intros HL. rewrite (truncate_Z T HL).
  destruct (Z.leb_spec (Z.of_nat (length T)) L); [left|right]; split; try reflexivity; lia.
Qed.

(** X1. Capping is idempotent for a limit that is not negative: a text that
    was capped at [L] is returned as it is when capped at [L] again, marker
    included. *)
Theorem truncate_idempotent (T : str) (L : Z) :
  (0 <= L)%Z -> truncate (truncate T L) L = truncate T L.
Proof.
  intros HL.
  destruct (truncate_nonneg_cases T HL) as [[Hlen E]|[Hlen E]]; rewrite E.
  - exact E.
  - assert (Hl : length (firstn (Z.to_nat L) T) = Z.to_nat L)
      by (apply firstn_length_le; lia).
    destruct (truncate_nonneg_cases (firstn (Z.to_nat L) T ++ truncation_marker) HL)
      as [[Hlen' _]|[_ E']].
    + rewrite length_app, Hl, truncation_marker_length in Hlen'. lia.
    + rewrite E'. f_equal.
      rewrite firstn_app, Hl, Nat.sub_diag, firstn_firstn, Nat.min_id.
      simpl. now rewrite app_nil_r.
Qed.

(** The idempotence on a text longer than its cap. *)
Lemma truncate_idempotent_witness :
  truncate (truncate (lit "abcdef") 2) 2 = lit "ab ...[truncated]".
Proof.
  rewrite (@truncate_idempotent (lit "abcdef") 2 ltac:(lia)). reflexivity.
Defined.

(** X2. For a negative limit the slice counts from the end: the cap drops
    the last [-L] characters and appends the marker to every text, however
    short, the empty text included. *)
Theorem truncate_negative_limit (T : str) (L : Z) :
  (L < 0)%Z ->
  truncate T L = firstn (length T - Z.to_nat (- L)) T ++ lit " ...[truncated]"
  /\ length (truncate T L) = (length T - Z.to_nat (- L)) + 15
  /\ endswith (truncate T L) (lit " ...[truncated]") = true.
Proof.
  intros HL.
  assert (E : truncate T L = firstn (length T - Z.to_nat (- L)) T ++ truncation_marker).
  { unfold truncate, slice_to.
    destruct (Z.ltb_spec L (Z.of_nat (length T))); [|lia].
    destruct (Z.leb_spec 0 L); [lia|reflexivity]. }
  assert (Hl : length (truncate T L) = (length T - Z.to_nat (- L)) + 15).
  { rewrite E, length_app, truncation_marker_length.
    rewrite firstn_length_le by lia. reflexivity. }
  split; [exact E|]. split; [exact Hl|].
  rewrite E. apply endswith_app.
Qed.

(** A text of three characters capped at -1. *)
Lemma truncate_negative_limit_witness :
  truncate (lit "abc") (-1) = lit "ab ...[truncated]".
Proof.
  rewrite (proj1 (@truncate_negative_limit (lit "abc") (-1) ltac:(lia))). reflexivity.
Defined.

(** The first characters of a capped text are those of the text, up to the
    cap. *)
Lemma firstn_truncate (T : str) (L : Z) (n : nat) :
  (Z.of_nat n <= L)%Z -> firstn n (truncate T L) = firstn n T.
Proof.
  intros Hn.
  destruct (@truncate_nonneg_cases T L ltac:(lia)) as [[_ E]|[Hlen E]]; rewrite E;
    [reflexivity|].
  rewrite firstn_app.
  rewrite firstn_length_le by lia.
  replace (n - Z.to_nat L) with 0 by lia.
  rewrite firstn_firstn. simpl. rewrite app_nil_r.
  f_equal. lia.
Qed.

(** ** Fetching and analysing a transcript *)

Lemma join_nonempty (sep : str) (parts : list str) :
  Forall (fun p => p <> []) parts -> join sep parts = [] -> parts = [].
Proof.
  destruct parts as [|p rest]; [reflexivity|].
  intros H E. inversion H as [|x xs Hp _]; subst.
  destruct rest as [|q rest]; simpl in E.
  - contradiction.
  - destruct p; [contradiction|discriminate].
Qed.

Lemma truncate_nil_iff (T : str) (L : Z) : (0 <= L)%Z -> truncate T L = [] <-> T = [].
Proof.
  intros HL. destruct (truncate_nonneg_cases T HL) as [[_ E]|[Hlen E]]; rewrite E.
  - tauto.
  - split.
    + intros H. apply (f_equal (@length char)) in H.
      rewrite length_app, truncation_marker_length in H. simpl in H. lia.
    + intros ->. simpl in Hlen. lia.
Qed.

Section TranscriptFacts.

Variable World : Type.
Variable ChatCompletion_create : ChatRequest -> World -> outcome ChatResponse * World.
Variable YouTubeTranscriptApi_fetch : str -> World -> outcome (list Segment) * World.
Variable json_loads : str -> outcome json.

Implicit Types (s : state World) (w : World).

Lemma fetch_youtube_transcript_answered (video_id : str) (max_chars : Z)
    (segs : list Segment) s w' :
  YouTubeTranscriptApi_fetch video_id (world s) = (Ok segs, w') ->
  fetch_youtube_transcript YouTubeTranscriptApi_fetch video_id max_chars s
  = (Ok (truncate (transcript_of segs) max_chars),
     {| world := w';
        page := page s ++ [StdoutPrint (str_of_nat (length (transcript_of segs))
                                         ++ lit " characters in fetched transcript")] |}).
Proof.
  intros H. unfold fetch_youtube_transcript, bind at 1, external. rewrite H.
  reflexivity.
Qed.

(** X3. When the captioning service raises, [fetch_youtube_transcript]
    raises the same exception, and nothing is printed. *)
Theorem fetch_failure_propagates (video_id : str) (max_chars : Z) (e : exn) s w' :
  YouTubeTranscriptApi_fetch video_id (world s) = (Raise e, w') ->
  fetch_youtube_transcript YouTubeTranscriptApi_fetch video_id max_chars s
  = (Raise e, {| world := w'; page := page s |}).
Proof.
  intros H. unfold fetch_youtube_transcript, bind at 1, external. now rewrite H.
Qed.

(** X4. With a limit that is not negative, the transcript that
    [fetch_youtube_transcript] returns has at most [max_chars + 15]
    characters, hence at most 60015 with the default, and what it prints is
    the length of the text before the cap. *)
Theorem fetched_transcript_bounded (video_id : str) (max_chars : Z)
    (segs : list Segment) s w' :
  (0 <= max_chars)%Z ->
  YouTubeTranscriptApi_fetch video_id (world s) = (Ok segs, w') ->
  exists (transcript : str) s',
    fetch_youtube_transcript YouTubeTranscriptApi_fetch video_id max_chars s
    = (Ok transcript, s')
    /\ (Z.of_nat (length transcript) <= max_chars + 15)%Z
    /\ page s'
       = page s
         ++ [StdoutPrint
               (str_of_nat
                  (length (join (lit " ")
                             (map text
                                (filter (fun seg => negb (all_space (text seg))) segs))))
                ++ lit " characters in fetched transcript")].
Proof.
  intros HL H. rewrite (@fetch_youtube_transcript_answered video_id max_chars segs s w' H).
  eexists. eexists. split; [reflexivity|]. split.
  - destruct (truncate_nonneg_cases (transcript_of segs) HL) as [[Hlen E]|[Hlen E]];
      rewrite E.
    + lia.
    + rewrite length_app, truncation_marker_length.
      rewrite firstn_length_le by lia. lia.
  - cbn [page]. now rewrite transcript_of_nonblank.
Qed.

(** X5. With a limit that is not negative, the fetched transcript is empty
    exactly when every caption segment is blank; this includes the case of
    no segment at all, and it is not an error. *)
Theorem transcript_empty_iff_all_blank (video_id : str) (max_chars : Z)
    (segs : list Segment) s w' :
  (0 <= max_chars)%Z ->
  YouTubeTranscriptApi_fetch video_id (world s) = (Ok segs, w') ->
  exists (transcript : str) s',
    fetch_youtube_transcript YouTubeTranscriptApi_fetch video_id max_chars s
    = (Ok transcript, s')
    /\ (transcript = [] <-> Forall (fun seg => all_space (text seg) = true) segs).
Proof.
  intros HL H. rewrite (@fetch_youtube_transcript_answered video_id max_chars segs s w' H).
  eexists. eexists. split; [reflexivity|].
  rewrite (truncate_nil_iff _ HL), transcript_of_nonblank.
  split.
  - intros E. apply join_nonempty in E.
    + apply map_eq_nil in E. apply Forall_forall. intros seg Hin.
      destruct (all_space (text seg)) eqn:Hb; [reflexivity|].
      assert (Hf : In seg (filter (fun seg => negb (all_space (text seg))) segs))
        by (apply filter_In; split; [exact Hin|now rewrite Hb]).
      rewrite E in Hf. contradiction.
    + apply Forall_forall. intros p Hin. apply in_map_iff in Hin.
      destruct Hin as [seg [<- Hin]]. apply filter_In in Hin.
      destruct Hin as [_ Hb]. intros Hnil. rewrite Hnil in Hb. discriminate.
  - intros Hall.
    assert (E : filter (fun seg => negb (all_space (text seg))) segs = []).
    { clear - Hall. induction Hall as [|seg segs' Hb _ IH]; [reflexivity|].
      simpl. rewrite Hb. exact IH. }
    rewrite E. reflexivity.
Qed.

(** X6. [analyze_transcript] reads the first 5000 characters of the
    transcript and nothing else: two transcripts that agree on them give the
    same request, the same result and the same page. *)
Theorem analyze_transcript_reads_prefix (t1 t2 : str) s :
  firstn (Z.to_nat 5000) t1 = firstn (Z.to_nat 5000) t2 ->
  analyze_transcript ChatCompletion_create json_loads t1 s
  = analyze_transcript ChatCompletion_create json_loads t2 s.
Proof.
  intros H. unfold analyze_transcript.
  rewrite !lecture_prompt_rendered. unfold rendered_lecture_prompt, lecture_budget.
  now rewrite H.
Qed.

(** X7. The cap on a fetched transcript is invisible to the critique when
    it is at least the budget of the lecture template, as the default 60000
    is: analysing the capped text and analysing the full text are the same
    computation, and the truncation marker never reaches the prompt. *)
Theorem cap_invisible_to_critique (T : str) (max_chars : Z) s :
  (5000 <= max_chars)%Z ->
  analyze_transcript ChatCompletion_create json_loads (truncate T max_chars) s
  = analyze_transcript ChatCompletion_create json_loads T s.
Proof.
  intros H. unfold analyze_transcript.
  rewrite !lecture_prompt_rendered. unfold rendered_lecture_prompt, lecture_budget.
  rewrite firstn_truncate by lia. reflexivity.
Qed.

(** X8. [analyze_transcript] raises exactly when the completion call for
    the rendered prompt raises, and then with the same exception and an
    unchanged page; whatever the service answers, it returns a value. *)
Theorem analyze_transcript_raises_only_upstream (transcript_text : str) (e : exn) s :
  (fst (analyze_transcript ChatCompletion_create json_loads transcript_text s) = Raise e
   <-> fst (call_llm ChatCompletion_create (rendered_lecture_prompt transcript_text)
              (world s)) = Raise e)
  /\ (fst (analyze_transcript ChatCompletion_create json_loads transcript_text s) = Raise e ->
      page (snd (analyze_transcript ChatCompletion_create json_loads transcript_text s))
      = page s).
Proof.
  destruct (call_llm ChatCompletion_create (rendered_lecture_prompt transcript_text)
              (world s)) as [[raw|e'] w1] eqn:Hcall.
  - rewrite (analyze_transcript_answered ChatCompletion_create json_loads
               transcript_text s Hcall).
    destruct (json_loads (clean_response raw)) as [v|e''] eqn:Hd.
    + rewrite (parse_critique_ok json_loads raw _ Hd). simpl.
      split; [split|]; discriminate.
    + rewrite (parse_critique_raise json_loads raw _ Hd). simpl.
      split; [split|]; discriminate.
  - assert (E : analyze_transcript ChatCompletion_create json_loads transcript_text s
                = (Raise e', {| world := w1; page := page s |})).
    { unfold analyze_transcript, bind at 1, lift at 1.
      rewrite lecture_prompt_rendered. unfold bind, external. now rewrite Hcall. }
    rewrite E. split; [split; intros X; simpl in *; inversion X; reflexivity|reflexivity].
Qed.

End TranscriptFacts.

(** A captioning service that raises. *)
Lemma fetch_failure_propagates_witness :
  fetch_youtube_transcript scripted_fetch (lit "video") default_max_chars
    (script [] (Raise APIConnectionError))
  = (Raise APIConnectionError, script [] (Raise APIConnectionError)).
Proof.
  apply (@fetch_failure_propagates Script scripted_fetch (lit "video") default_max_chars
           APIConnectionError (script [] (Raise APIConnectionError))
           {| completions := []; captions := Raise APIConnectionError |}).
  reflexivity.
Defined.

(** Two words capped at four characters. *)
Lemma fetched_transcript_bounded_witness :
  exists transcript s',
    fetch_youtube_transcript scripted_fetch (lit "video") 4
      (script [] (Ok [ {| text := lit "hello" |}; {| text := lit "world" |} ]))
    = (Ok transcript, s')
    /\ (Z.of_nat (length transcript) <= 19)%Z.
Proof.
  destruct (@fetched_transcript_bounded Script scripted_fetch (lit "video") 4
              [ {| text := lit "hello" |}; {| text := lit "world" |} ]
              (script [] (Ok [ {| text := lit "hello" |}; {| text := lit "world" |} ]))
              {| completions := [];
                 captions := Ok [ {| text := lit "hello" |}; {| text := lit "world" |} ] |}
              ltac:(lia) ltac:(reflexivity))
    as (transcript & s' & E & L & _).
  exists transcript, s'. split; [exact E|exact L].
Defined.

(** Captions of a blank segment and an empty one. *)
Lemma transcript_empty_iff_all_blank_witness :
  exists s',
    fetch_youtube_transcript scripted_fetch (lit "video") default_max_chars
      (script [] (Ok [ {| text := lit "  " |}; {| text := [] |} ]))
    = (Ok [], s').
Proof.
  destruct (@transcript_empty_iff_all_blank Script scripted_fetch (lit "video")
              default_max_chars
              [ {| text := lit "  " |}; {| text := [] |} ]
              (script [] (Ok [ {| text := lit "  " |}; {| text := [] |} ]))
              {| completions := [];
                 captions := Ok [ {| text := lit "  " |}; {| text := [] |} ] |}
              ltac:(unfold default_max_chars; lia) ltac:(reflexivity))
    as (transcript & s' & E & I).
  exists s'. rewrite (proj2 I) in E; [exact E|].
  repeat constructor.
Defined.

(** Two transcripts that differ in their 5001st character. *)
Lemma analyze_transcript_reads_prefix_witness :
  analyze_transcript scripted_create Decoder.loads
    (repeat 97%N (Z.to_nat 5000) ++ lit "x") (script [Ok empty_object] (Ok []))
  = analyze_transcript scripted_create Decoder.loads
      (repeat 97%N (Z.to_nat 5000) ++ lit "y") (script [Ok empty_object] (Ok [])).
Proof.
  apply (@analyze_transcript_reads_prefix Script scripted_create Decoder.loads
           (repeat 97%N (Z.to_nat 5000) ++ lit "x")
           (repeat 97%N (Z.to_nat 5000) ++ lit "y")
           (script [Ok empty_object] (Ok []))).
  vm_compute. reflexivity.
Defined.

(** A transcript of 5001 characters capped at 5000. *)
Lemma cap_invisible_to_critique_witness :
  analyze_transcript scripted_create Decoder.loads
    (truncate (repeat 97%N (Z.to_nat 5001)) 5000) (script [Ok empty_object] (Ok []))
  = analyze_transcript scripted_create Decoder.loads
      (repeat 97%N (Z.to_nat 5001)) (script [Ok empty_object] (Ok [])).
Proof.
  apply (@cap_invisible_to_critique Script scripted_create Decoder.loads
           (repeat 97%N (Z.to_nat 5001)) 5000 (script [Ok empty_object] (Ok []))).
  lia.
Defined.

(** A completion call that raises. *)
Lemma analyze_transcript_raises_only_upstream_witness :
  fst (analyze_transcript scripted_create Decoder.loads (lit "a lecture")
         (script [Raise APIConnectionError] (Ok [])))
  = Raise APIConnectionError.
Proof.
  apply (proj2 (proj1 (@analyze_transcript_raises_only_upstream Script scripted_create
                         Decoder.loads (lit "a lecture") APIConnectionError
                         (script [Raise APIConnectionError] (Ok []))))).
  reflexivity.
Defined.

(** ** More on the cleaning of the answer *)

Lemma rstrip_suffix (s : str) : exists ws, all_space ws = true /\ s = rstrip s ++ ws.
Proof.
  unfold rstrip. destruct (lstrip_suffix (rev s)) as [ws [Hws E]].
  exists (rev ws). split; [now rewrite all_space_rev|].
  rewrite <- rev_app_distr, <- E. symmetry. apply rev_involutive.
Qed.

Lemma strip_parts (s : str) :
  exists a b, all_space a = true /\ all_space b = true /\ s = a ++ strip s ++ b.
Proof.
  destruct (lstrip_suffix s) as [a [Ha Ea]].
  destruct (rstrip_suffix (lstrip s)) as [b [Hb Eb]].
  exists a, b. split; [exact Ha|]. split; [exact Hb|].
  unfold strip. now rewrite <- Eb.
Qed.

Lemma lstrip_nil_or_solid (s : str) : lstrip s = [] \/ starts_solid (lstrip s).
Proof.
  induction s as [|c s IH]; simpl; [now left|].
  destruct (is_space c) eqn:Hc; [exact IH|].
  right. exact Hc.
Qed.

Lemma strip_nil_or_solid (s : str) :
  strip s = [] \/ (starts_solid (strip s) /\ ends_solid (strip s)).
Proof.
  unfold strip.
  destruct (lstrip_nil_or_solid s) as [E|Hs]; [left; now rewrite E|].
  set (t := lstrip s) in *.
  destruct (rstrip_suffix t) as [ws [Hws Et]].
  destruct (lstrip_nil_or_solid (rev t)) as [E|Hu].
  - left. unfold rstrip. now rewrite E.
  - right. split.
    + destruct (rstrip t) as [|a r] eqn:Er.
      * simpl in Et. rewrite Et in Hs. destruct ws as [|c ws]; [exact Hs|].
        simpl in Hs, Hws. rewrite Hs in Hws. discriminate.
      * rewrite Et in Hs. exact Hs.
    + unfold ends_solid, rstrip. now rewrite rev_involutive.
Qed.

Lemma strip_idempotent (s : str) : strip (strip s) = strip s.
Proof.
  destruct (strip_nil_or_solid s) as [E|[Hs He]].
  - now rewrite E.
  - now apply strip_solid_id.
Qed.

Lemma no_backtick_app (a b : str) :
  no_backtick (a ++ b) = no_backtick a && no_backtick b.
Proof. apply forallb_app. Qed.

Lemma no_backtick_strip (s : str) : no_backtick s = true -> no_backtick (strip s) = true.
Proof.
  destruct (strip_parts s) as [a [b [_ [_ E]]]]. intros H.
  rewrite E, !no_backtick_app in H.
  apply andb_prop in H. destruct H as [_ H].
  apply andb_prop in H. tauto.
Qed.

Lemma no_backtick_rev (s : str) : no_backtick (rev s) = no_backtick s.
Proof.
  induction s as [|c s IH]; [reflexivity|].
  simpl rev. rewrite no_backtick_app, IH. simpl.
  rewrite andb_true_r. apply andb_comm.
Qed.

Lemma no_backtick_startswith (s p : str) :
  no_backtick s = true -> startswith s (96%N :: p) = false.
Proof.
  destruct s as [|c s]; [reflexivity|]. intros H.
  unfold no_backtick in H. cbn [forallb] in H.
  apply andb_prop in H. destruct H as [Hc _].
  apply negb_true_iff in Hc.
  cbn [startswith]. rewrite N.eqb_sym, Hc. reflexivity.
Qed.

Lemma part_trans (x y z : str) :
  (exists a b, x = a ++ y ++ b) -> (exists c d, y = c ++ z ++ d) ->
  exists e f, x = e ++ z ++ f.
Proof.
  intros [a [b ->]] [c [d ->]]. exists (a ++ c), (d ++ b).
  now rewrite <- !app_assoc.
Qed.

Lemma strip_part (s : str) : exists a b, s = a ++ strip s ++ b.
Proof. destruct (strip_parts s) as [a [b [_ [_ E]]]]. now exists a, b. Qed.

(** X9. Cleaning only cuts at the two ends: the cleaned text is a
    contiguous part of the answer, so no character inside it is changed,
    added or dropped, and it is never longer than the answer. *)
Theorem clean_response_is_part_of_answer (raw : str) :
  (exists pre post, raw = pre ++ clean_response raw ++ post)
  /\ length (clean_response raw) <= length raw.
Proof.
  assert (P : exists pre post, raw = pre ++ clean_response raw ++ post).
  { unfold clean_response.
    apply part_trans with (y := strip raw); [apply strip_part|].
    generalize (strip raw). intros t1.
    apply part_trans
      with (y := if startswith t1 (lit "```json") then slice_from t1 7 else t1).
    { destruct (startswith t1 (lit "```json")).
      - exists (firstn 7 t1), []. rewrite app_nil_r. symmetry. apply firstn_skipn.
      - exists [], []. now rewrite app_nil_r. }
    generalize (if startswith t1 (lit "```json") then slice_from t1 7 else t1).
    intros t2.
    apply part_trans
      with (y := if endswith t2 (lit "```") then slice_to t2 (-3) else t2);
      [|apply strip_part].
    destruct (endswith t2 (lit "```")).
    - exists [], (skipn (length t2 - 3) t2).
      change (-3)%Z with (- Z.of_nat 3)%Z. rewrite slice_to_neg by lia.
      symmetry. apply firstn_skipn.
    - exists [], []. now rewrite app_nil_r. }
  split; [exact P|].
  destruct P as [pre [post E]]. rewrite E at 2. rewrite !length_app. lia.
Qed.

(** X10. The cleaned text is trimmed: it is empty, or it begins and ends
    with a character that is not whitespace; stripping it again changes
    nothing. *)
Theorem clean_response_trimmed (raw : str) :
  (clean_response raw = []
   \/ (starts_solid (clean_response raw) /\ ends_solid (clean_response raw)))
  /\ strip (clean_response raw) = clean_response raw.
Proof.
  unfold clean_response. split; [apply strip_nil_or_solid|apply strip_idempotent].
Qed.

(** X11. An answer without a backtick is only trimmed: no marker is looked
    for inside the text, and cleaning it is [strip]. *)
Theorem clean_response_without_fence (raw : str) :
  no_backtick raw = true -> clean_response raw = strip raw.
Proof.
  intros H. apply no_backtick_strip in H. unfold clean_response.
  change (lit "```json") with (96%N :: lit "``json").
  rewrite (no_backtick_startswith _ _ H).
  unfold endswith. change (rev (lit "```")) with (96%N :: lit "``").
  rewrite no_backtick_startswith by (now rewrite no_backtick_rev).
  apply strip_idempotent.
Qed.

(** An answer in plain words. *)
Lemma clean_response_without_fence_witness :
  clean_response (lit "  not json at all ") = lit "not json at all".
Proof.
  rewrite (@clean_response_without_fence (lit "  not json at all ") ltac:(reflexivity)).
  reflexivity.
Defined.

(** ** More on the feedback run *)

Section RunFacts.

Variable World : Type.
Variable ChatCompletion_create : ChatRequest -> World -> outcome ChatResponse * World.
Variable json_loads : str -> outcome json.

Implicit Types (s : state World) (w : World).

(** A step in full: its outcome, the world it leaves and what it writes. *)
Lemma feedback_step_outcome (total i : nat) (kg : GroupKey * DataFrame) s :
  exists s' evs,
    feedback_step ChatCompletion_create json_loads total i (fst kg) (snd kg) s
    = (step_outcome ChatCompletion_create json_loads kg (world s), s')
    /\ world s'
       = snd (call_llm ChatCompletion_create (rendered_feedback_prompt (snd kg)) (world s))
    /\ page s' = page s ++ evs
    /\ Forall (step_event (i + 1) total) evs.
Proof.
  destruct kg as [[inst course] g]. cbn [fst snd].
  unfold feedback_step, bind at 1, ui at 1.
  unfold bind at 1, lift at 1. rewrite feedback_prompt_rendered.
  unfold bind at 1, external. cbn [world page].
  unfold step_outcome. cbn [fst snd].
  destruct (call_llm ChatCompletion_create (rendered_feedback_prompt g) (world s))
    as [[raw|e] w1].
  - unfold bind at 1. unfold extracted_feedback.
    destruct (json_loads (clean_response raw)) as [v|e] eqn:Hd.
    + rewrite (parse_feedback_ok json_loads raw _ Hd).
      unfold bind at 1, lift at 1.
      destruct (feedback_record inst course v) as [r|e].
      * unfold bind, ui, ret. cbn [world page].
        eexists. eexists. split; [reflexivity|]. split; [reflexivity|].
        cbn [page]. rewrite <- app_assoc. split; [reflexivity|].
        repeat constructor.
      * eexists. eexists. split; [reflexivity|]. split; [reflexivity|].
        cbn [page]. split; [reflexivity|]. repeat constructor.
    + rewrite (parse_feedback_raise json_loads raw _ Hd).
      unfold bind at 1, lift at 1.
      destruct (feedback_record inst course (feedback_fallback raw)) as [r|e'].
      * unfold bind, ui, ret, log. cbn [world page].
        eexists. eexists. split; [reflexivity|]. split; [reflexivity|].
        cbn [page]. rewrite <- !app_assoc. split; [reflexivity|].
        repeat constructor.
      * unfold log. eexists. eexists. split; [reflexivity|]. split; [reflexivity|].
        cbn [page]. rewrite <- app_assoc. split; [reflexivity|]. repeat constructor.
  - eexists. eexists. split; [reflexivity|]. split; [reflexivity|].
    cbn [page]. split; [reflexivity|]. repeat constructor.
Qed.

Lemma feedback_loop_cons (total i : nat) (kg : GroupKey * DataFrame)
    (rest : list (nat * (GroupKey * DataFrame))) (acc : list dict) s :
  exists s' evs,
    world s'
    = snd (call_llm ChatCompletion_create (rendered_feedback_prompt (snd kg)) (world s))
    /\ page s' = page s ++ evs
    /\ Forall (step_event (i + 1) total) evs
    /\ feedback_loop ChatCompletion_create json_loads total ((i, kg) :: rest) acc s
       = match step_outcome ChatCompletion_create json_loads kg (world s) with
         | Ok r =>
             feedback_loop ChatCompletion_create json_loads total rest (acc ++ [r]) s'
         | Raise e => (Raise e, s')
         end.
Proof.
  destruct (feedback_step_outcome total i kg s) as [s' [evs [E [W [P F]]]]].
  exists s', evs. split; [exact W|]. split; [exact P|]. split; [exact F|].
  destruct kg as [key g]. cbn [feedback_loop]. unfold bind at 1.
  cbn [fst snd] in E. rewrite E.
  destruct (step_outcome ChatCompletion_create json_loads (key, g) (world s));
    reflexivity.
Qed.

Lemma step_outcome_ok (kg : GroupKey * DataFrame) w (r : dict) :
  step_outcome ChatCompletion_create json_loads kg w = Ok r ->
  exists raw w1,
    call_llm ChatCompletion_create (rendered_feedback_prompt (snd kg)) w = (Ok raw, w1)
    /\ summarizes json_loads (kg, raw) r.
Proof.
  unfold step_outcome. destruct kg as [[inst course] g]. cbn [fst snd].
  destruct (call_llm ChatCompletion_create (rendered_feedback_prompt g) w)
    as [[raw|e] w1]; [|discriminate].
  intros H. now exists raw, w1.
Qed.

(** The loop ends with an exception exactly when, the steps before having
    given their records, the outcome of one step is that exception. *)
Lemma feedback_loop_raise_inv (total : nat) (gs : list (nat * (GroupKey * DataFrame))) :
  forall acc s e s',
    feedback_loop ChatCompletion_create json_loads total gs acc s = (Raise e, s') ->
    exists pre ikg post raws rs w1,
      gs = pre ++ ikg :: post
      /\ llm_answers ChatCompletion_create (world s) (map step_prompt pre) raws w1
      /\ Forall2 (summarizes json_loads) (combine (map snd pre) raws) rs
      /\ step_outcome ChatCompletion_create json_loads (snd ikg) w1 = Raise e.
Proof.
  induction gs as [|[i kg] gs IH]; intros acc s e s' H; [discriminate|].
  destruct (feedback_loop_cons total i kg gs acc s) as [s1 [evs [W [_ [_ E]]]]].
  rewrite E in H.
  destruct (step_outcome ChatCompletion_create json_loads kg (world s)) as [r|e0] eqn:Ho.
  - destruct (IH _ _ _ _ H) as (pre & ikg & post & raws & rs & w1 & -> & Hrun & Hrs & Hf).
    destruct (step_outcome_ok kg (world s) Ho) as (raw & w2 & Hcall & Hsum).
    rewrite Hcall in W. cbn [snd] in W.
    exists ((i, kg) :: pre), ikg, post, (raw :: raws), (r :: rs), w1.
    split; [reflexivity|]. split; [|split; [|exact Hf]].
    + simpl. econstructor; [exact Hcall|]. now rewrite <- W.
    + simpl. constructor; assumption.
  - inversion H; subst.
    exists [], (i, kg), gs, [], [], (world s).
    split; [reflexivity|]. split; [constructor|]. split; [constructor|exact Ho].
Qed.

Lemma feedback_loop_raise (total : nat) (pre : list (nat * (GroupKey * DataFrame))) :
  forall ikg post raws rs acc s w1 e,
    llm_answers ChatCompletion_create (world s) (map step_prompt pre) raws w1 ->
    Forall2 (summarizes json_loads) (combine (map snd pre) raws) rs ->
    step_outcome ChatCompletion_create json_loads (snd ikg) w1 = Raise e ->
    exists s',
      feedback_loop ChatCompletion_create json_loads total (pre ++ ikg :: post) acc s
      = (Raise e, s').
Proof.
  induction pre as [|[i kg] pre IH]; intros ikg post raws rs acc s w1 e Hrun Hrec Hf.
  - inversion Hrun; subst. destruct ikg as [i kg]. cbn [app].
    destruct (feedback_loop_cons total i kg post acc s) as [s1 [evs [_ [_ [_ E]]]]].
    cbn [snd] in Hf. rewrite E, Hf. now exists s1.
  - inversion Hrun as [|w0 p raw w2 ps raws' w3 Hcall Hrest]; subst.
    simpl in Hrec. inversion Hrec as [|x r xs rs' Hr Hrs]; subst.
    cbn [app].
    destruct (feedback_loop_cons total i kg (pre ++ ikg :: post) acc s)
      as [s1 [evs [W [_ [_ E]]]]].
    unfold step_prompt in Hcall. cbn [snd] in Hcall.
    rewrite E. unfold step_outcome. rewrite Hcall.
    rewrite Hcall in W. cbn [snd] in W.
    destruct kg as [[inst course] g]. cbn [fst snd].
    unfold summarizes in Hr. rewrite Hr.
    rewrite <- W in Hrest.
    exact (IH ikg post raws' rs' (acc ++ [r]) s1 w1 e Hrest Hrs Hf).
Qed.

Lemma enumerate_split (A : Type) (xs pre post : list A) (x : A) :
  xs = pre ++ x :: post ->
  exists ipre ix ipost,
    enumerate xs = ipre ++ ix :: ipost /\ map snd ipre = pre /\ snd ix = x.
Proof.
  intros Hsplit. pose proof (enumerate_snd xs) as Hs. rewrite Hsplit in Hs at 2.
  apply map_eq_app in Hs. destruct Hs as [ipre [rest [E [Hp Hr]]]].
  apply map_eq_cons in Hr. destruct Hr as [ix [ipost [-> [Hk _]]]].
  now exists ipre, ix, ipost.
Qed.

Lemma step_prompt_map (ipre : list (nat * (GroupKey * DataFrame))) :
  map step_prompt ipre = map (fun kg => rendered_feedback_prompt (snd kg)) (map snd ipre).
Proof. now rewrite map_map. Qed.

Lemma step_outcome_raise (kg : GroupKey * DataFrame) w (e : exn) :
  step_outcome ChatCompletion_create json_loads kg w = Raise e <->
  (fst (call_llm ChatCompletion_create (rendered_feedback_prompt (snd kg)) w) = Raise e
   \/ exists raw w2 v,
        call_llm ChatCompletion_create (rendered_feedback_prompt (snd kg)) w = (Ok raw, w2)
        /\ json_loads (clean_response raw) = Ok v
        /\ (forall d, v <> JDict d)
        /\ e = AttributeError v (lit "get")).
Proof.
  unfold step_outcome.
  destruct (call_llm ChatCompletion_create (rendered_feedback_prompt (snd kg)) w)
    as [[raw|e0] w1].
  - unfold extracted_feedback.
    destruct (json_loads (clean_response raw)) as [v|e1] eqn:Hd.
    + split.
      * intros H. right. exists raw, w1, v. split; [reflexivity|]. split; [exact Hd|].
        destruct v; try discriminate H; (split; [discriminate|]);
          cbn in H; inversion H; reflexivity.
      * intros [H|(raw' & w2 & v' & Hc & Hv & Hn & ->)]; [discriminate H|].
        inversion Hc; subst raw' w2. rewrite Hd in Hv. inversion Hv; subst v'.
        destruct v as [| | | | | |d0]; try reflexivity. destruct (Hn d0 eq_refl).
    + split; [discriminate|].
      intros [H|(raw' & w2 & v' & Hc & Hv & _)]; [discriminate H|].
      inversion Hc; subst raw' w2. rewrite Hd in Hv. discriminate Hv.
  - split.
    + intros H. left. cbn [fst]. inversion H. reflexivity.
    + intros [H|(raw' & w2 & v' & Hc & _)]; [|discriminate Hc].
      cbn [fst] in H. inversion H. reflexivity.
Qed.

(** X12. For a frame without rows [process_feedback] returns the empty
    list at once: no request is sent, the world is unchanged, and no
    progress is ever computed, so that the division by the number of groups
    is never made with zero. *)
Theorem process_feedback_empty_frame s :
  process_feedback ChatCompletion_create json_loads [] s
  = (Ok [],
     {| world := world s;
        page := page s ++ [ UiNewProgress 0; UiNewEmpty;
                            UiStatusText (lit "Analysis complete!"); UiSleep 1;
                            UiClearProgress; UiClearStatus ] |}).
Proof.
  rewrite process_feedback_unfold. cbn. unfold ret, log. cbn.
  now rewrite <- !app_assoc.
Qed.

(** X13. When [process_feedback] returns, it has asked the service exactly
    once per group, in the order of the groups and with the rendered prompt
    of each; every answer was usable, and the records returned are those of
    the answers, one per group. *)
Theorem process_feedback_asks_once_per_group (df : DataFrame) (rs : list dict) s s' :
  process_feedback ChatCompletion_create json_loads df s = (Ok rs, s') ->
  exists raws,
    llm_answers ChatCompletion_create (world s) (feedback_prompts df) raws (world s')
    /\ length raws = length (group_keys df)
    /\ length rs = length (group_keys df)
    /\ Forall (usable_answer json_loads) raws
    /\ Forall2 (summarizes json_loads) (combine (groupby df) raws) rs.
Proof.
  intros H.
  destruct (process_feedback_inv ChatCompletion_create json_loads df s H)
    as [raws [Hrun Hrs]].
  pose proof (llm_answers_length Hrun) as Hlen.
  unfold feedback_prompts in Hlen. rewrite length_map in Hlen.
  exists raws. split; [exact Hrun|].
  rewrite <- groupby_keys, length_map.
  split; [exact Hlen|]. split; [|split; [|exact Hrs]].
  - apply Forall2_length in Hrs. rewrite <- Hrs, length_combine. lia.
  - clear - Hlen Hrs. revert raws rs Hlen Hrs.
    induction (groupby df) as [|[[inst course] g] gs IH]; intros [|raw raws] rs Hlen Hrs;
      simpl in *; try discriminate; [constructor|].
    inversion Hrs as [|x r xs rs' Hr Hrest]; subst.
    constructor; [|apply (IH raws rs'); [lia|exact Hrest]].
    intros v Hv. unfold summarizes, extracted_feedback in Hr. rewrite Hv in Hr.
    apply feedback_record_inv in Hr. destruct Hr as [d [-> _]]. now exists d.
Qed.

(** X14. [process_feedback] ends with an exception in two cases only, and
    in each of them: for some group, the groups before it having been
    answered and recorded, either the completion call raises, and that is
    the exception, or the answer decodes to something that is not an
    object, and the exception is the AttributeError of its missing [get]. *)
Theorem process_feedback_failure_cause (df : DataFrame) (e : exn) s :
  (exists s', process_feedback ChatCompletion_create json_loads df s = (Raise e, s'))
  <->
  (exists pre kg post raws rs w1,
     groupby df = pre ++ kg :: post
     /\ llm_answers ChatCompletion_create (world s)
          (map (fun kg => rendered_feedback_prompt (snd kg)) pre) raws w1
     /\ Forall2 (summarizes json_loads) (combine pre raws) rs
     /\ (fst (call_llm ChatCompletion_create (rendered_feedback_prompt (snd kg)) w1)
         = Raise e
         \/ exists raw w2 v,
              call_llm ChatCompletion_create (rendered_feedback_prompt (snd kg)) w1
              = (Ok raw, w2)
              /\ json_loads (clean_response raw) = Ok v
              /\ (forall d, v <> JDict d)
              /\ e = AttributeError v (lit "get"))).
Proof.
  split.
  - intros [s' H]. rewrite process_feedback_unfold in H.
    destruct (feedback_loop _ _ _ _ _ _) as [[rs0|e0] s2] eqn:E; [discriminate|].
    inversion H; subst.
    destruct (feedback_loop_raise_inv _ _ _ _ E)
      as (ipre & ikg & ipost & raws & rs & w1 & Hsplit & Hrun & Hrs & Hf).
    exists (map snd ipre), (snd ikg), (map snd ipost), raws, rs, w1.
    split; [|split; [|split; [exact Hrs|]]].
    + rewrite <- (enumerate_snd (groupby df)), Hsplit, map_app. reflexivity.
    + rewrite <- step_prompt_map. exact Hrun.
    + apply step_outcome_raise. exact Hf.
  - intros (pre & kg & post & raws & rs & w1 & Hsplit & Hrun & Hrs & Hf).
    destruct (@enumerate_split _ _ _ _ _ Hsplit) as (ipre & ikg & ipost & E & Hp & Hk).
    subst pre kg. rewrite <- step_prompt_map in Hrun.
    apply step_outcome_raise in Hf.
    destruct (feedback_loop_raise (length (groupby df)) ipre ikg ipost []
                (log (log s [UiNewProgress 0]) [UiNewEmpty]) Hrun Hrs Hf) as [s2 E2].
    exists s2. rewrite process_feedback_unfold, E, E2. reflexivity.
Qed.

Lemma enumerate_index_bound (A : Type) (xs : list A) :
  Forall (fun ix => fst ix < length xs) (enumerate xs).
Proof.
  apply Forall_forall. intros [i x] Hin. unfold enumerate in Hin.
  apply in_combine_l in Hin. apply in_seq in Hin. simpl. lia.
Qed.

Lemma step_event_in_range (i total : nat) (ev : ui_event) :
  i < total -> step_event (i + 1) total ev -> progress_in_range ev.
Proof. destruct ev; simpl; try tauto. intros Hi [-> ->]. lia. Qed.

Lemma feedback_loop_pages (total : nat) (gs : list (nat * (GroupKey * DataFrame))) :
  Forall (fun ikg => fst ikg < total) gs ->
  forall acc s,
    exists evs,
      page (snd (feedback_loop ChatCompletion_create json_loads total gs acc s))
      = page s ++ evs
      /\ Forall progress_in_range evs.
Proof.
  induction 1 as [|[i kg] gs Hi _ IH]; intros acc s.
  - exists []. simpl. now rewrite app_nil_r.
  - destruct (feedback_loop_cons total i kg gs acc s) as [s1 [evs [_ [P [F E]]]]].
    assert (F' : Forall progress_in_range evs).
    { eapply Forall_impl; [|exact F]. intros ev. now apply step_event_in_range. }
    rewrite E.
    destruct (step_outcome ChatCompletion_create json_loads kg (world s)) as [r|e].
    + destruct (IH (acc ++ [r]) s1) as [evs' [P' F'']].
      exists (evs ++ evs'). rewrite P', P, app_assoc. split; [reflexivity|].
      apply Forall_app. now split.
    + exists evs. now split.
Qed.

(** X15. Whatever the outcome of [process_feedback], every value it gives
    to the progress bar is a fraction [num / den] with [1 <= num <= den]:
    the bar is never set outside its range, and never with a zero
    denominator. *)
Theorem progress_values_in_range (df : DataFrame) s :
  exists evs,
    page (snd (process_feedback ChatCompletion_create json_loads df s)) = page s ++ evs
    /\ Forall progress_in_range evs.
Proof.
  rewrite process_feedback_unfold.
  destruct (feedback_loop_pages (enumerate_index_bound (groupby df)) []
              (log (log s [UiNewProgress 0]) [UiNewEmpty])) as [evs [P F]].
  destruct (feedback_loop _ _ _ _ _ _) as [[rs|e] s2]; cbn [snd] in *.
  - exists ([UiNewProgress 0; UiNewEmpty] ++ evs
            ++ [ UiStatusText (lit "Analysis complete!"); UiSleep 1;
                 UiClearProgress; UiClearStatus ]).
    unfold log in *. cbn [page] in *. rewrite P, <- !app_assoc.
    split; [reflexivity|].
    apply Forall_app. split; [repeat constructor|].
    apply Forall_app. split; [exact F|repeat constructor].
  - exists ([UiNewProgress 0; UiNewEmpty] ++ evs).
    unfold log in *. cbn [page] in *. rewrite P, <- !app_assoc.
    split; [reflexivity|].
    apply Forall_app. split; [repeat constructor|exact F].
Qed.

End RunFacts.

(** A run of two groups, one answer an object and one in plain words. *)
Lemma process_feedback_asks_once_per_group_witness :
  exists rs s' raws,
    process_feedback scripted_create Decoder.loads two_groups
      (script [Ok empty_object; Ok not_json] (Ok [])) = (Ok rs, s')
    /\ llm_answers scripted_create
         {| completions := [Ok empty_object; Ok not_json]; captions := Ok [] |}
         (feedback_prompts two_groups) raws (world s')
    /\ length raws = 2 /\ length rs = 2.
Proof.
  pose (r := process_feedback scripted_create Decoder.loads two_groups
               (script [Ok empty_object; Ok not_json] (Ok []))).
  assert (E : r = (Ok (match fst r with Ok rs => rs | Raise _ => [] end), snd r))
    by (vm_compute; reflexivity).
  destruct (@process_feedback_asks_once_per_group Script scripted_create Decoder.loads
              two_groups _ (script [Ok empty_object; Ok not_json] (Ok [])) _ E)
    as (raws & Hrun & Hraws & Hrs & _).
  exists (match fst r with Ok rs => rs | Raise _ => [] end), (snd r), raws.
  split; [exact E|]. split; [exact Hrun|]. split; [exact Hraws|exact Hrs].
Defined.

(** A run that ends at the second group, whose answer is a list. *)
Lemma process_feedback_failure_cause_witness :
  exists s',
    process_feedback scripted_create Decoder.loads two_groups
      (script [Ok empty_object; Ok (lit "[1, 2]")] (Ok []))
    = (Raise (AttributeError (JList [JInt 1; JInt 2]) (lit "get")), s').
Proof.
  apply (proj2 (@process_feedback_failure_cause Script scripted_create Decoder.loads
                  two_groups (AttributeError (JList [JInt 1; JInt 2]) (lit "get"))
                  (script [Ok empty_object; Ok (lit "[1, 2]")] (Ok [])))).
  exists [((1, 10)%Z, [row 1 10 "very clear"])],
         ((2, 20)%Z, [row 2 20 "too fast"; row 2 20 "more examples please"]),
         [], [empty_object].
  eexists. exists {| completions := [Ok (lit "[1, 2]")]; captions := Ok [] |}.
  split; [reflexivity|].
  split; [econstructor; [reflexivity|constructor]|].
  split; [constructor; [vm_compute; reflexivity|constructor]|].
  right. exists (lit "[1, 2]"), {| completions := []; captions := Ok [] |},
           (JList [JInt 1; JInt 2]).
  split; [reflexivity|]. split; [vm_compute; reflexivity|].
  split; [discriminate|reflexivity].
Defined.

(** ** Groups, rows and prompts *)

Lemma sorted_keys_unique (l1 : list GroupKey) :
  forall l2,
    StronglySorted key_lt l1 -> StronglySorted key_lt l2 ->
    (forall k, In k l1 <-> In k l2) -> l1 = l2.
Proof.
  induction l1 as [|a l1 IH]; intros [|b l2] H1 H2 Hin.
  - reflexivity.
  - destruct (proj2 (Hin b) (or_introl eq_refl)).
  - destruct (proj1 (Hin a) (or_introl eq_refl)).
  - inversion H1 as [|? ? Hs1 Ha]; subst. inversion H2 as [|? ? Hs2 Hb]; subst.
    rewrite Forall_forall in Ha, Hb.
    assert (a = b).
    { destruct (proj1 (Hin a) (or_introl eq_refl)) as [E|Ha2]; [now symmetry|].
      destruct (proj2 (Hin b) (or_introl eq_refl)) as [E|Hb1]; [exact E|].
      exfalso. apply (@key_lt_irrefl a).
      apply (key_lt_trans (b := b)); [now apply Ha|now apply Hb]. }
    subst b. f_equal. apply IH; try assumption.
    intros k. split; intros Hk.
    + destruct (proj1 (Hin k) (or_intror Hk)) as [E|Hk2]; [|exact Hk2].
      subst k. exfalso. exact (key_lt_irrefl (Ha a Hk)).
    + destruct (proj2 (Hin k) (or_intror Hk)) as [E|Hk1]; [|exact Hk1].
      subst k. exfalso. exact (key_lt_irrefl (Hb a Hk)).
Qed.

Lemma group_keys_permutation (df df' : DataFrame) :
  Permutation df df' -> group_keys df = group_keys df'.
Proof.
  intros Hp. apply sorted_keys_unique; try apply group_keys_sorted.
  intros k. rewrite !group_keys_In.
  split; intros [r [Hin Hk]]; exists r; split; try exact Hk.
  - now apply (Permutation_in r Hp).
  - now apply (Permutation_in r (Permutation_sym Hp)).
Qed.

(** X16. The number of records and their order do not depend on the order
    of the rows: two runs on frames with the same rows in any order, even
    with different services, return records with the same list of keys. *)
Theorem record_keys_independent_of_row_order
    (World1 World2 : Type)
    (create1 : ChatRequest -> World1 -> outcome ChatResponse * World1)
    (create2 : ChatRequest -> World2 -> outcome ChatResponse * World2)
    (json_loads1 json_loads2 : str -> outcome json)
    (df df' : DataFrame) (rs rs' : list dict)
    (s1 t1 : state World1) (s2 t2 : state World2) :
  Permutation df df' ->
  process_feedback create1 json_loads1 df s1 = (Ok rs, t1) ->
  process_feedback create2 json_loads2 df' s2 = (Ok rs', t2) ->
  map record_key rs = map record_key rs' /\ length rs = length rs'.
Proof.
  intros Hp H1 H2.
  destruct (process_feedback_inv create1 json_loads1 df s1 H1) as [raws1 [Hrun1 Hrs1]].
  destruct (process_feedback_inv create2 json_loads2 df' s2 H2) as [raws2 [Hrun2 Hrs2]].
  pose proof (llm_answers_length Hrun1) as Hl1.
  pose proof (llm_answers_length Hrun2) as Hl2.
  unfold feedback_prompts in Hl1, Hl2. rewrite length_map in Hl1, Hl2.
  pose proof (summarizes_keys (groupby df) raws1 Hl1 Hrs1) as K1.
  pose proof (summarizes_keys (groupby df') raws2 Hl2 Hrs2) as K2.
  assert (E : map record_key rs = map record_key rs').
  { rewrite K1, K2.
    rewrite <- (map_map fst (fun k => Some (json_key k)) (groupby df)).
    rewrite <- (map_map fst (fun k => Some (json_key k)) (groupby df')).
    now rewrite !groupby_keys, (group_keys_permutation Hp). }
  split; [exact E|].
  apply (f_equal (@length _)) in E. now rewrite !length_map in E.
Qed.

(** The rows of [two_groups] and the same rows in reverse, with different
    answers. *)
Lemma record_keys_independent_of_row_order_witness :
  exists rs rs' t1 t2,
    process_feedback scripted_create Decoder.loads two_groups
      (script [Ok empty_object; Ok not_json] (Ok [])) = (Ok rs, t1)
    /\ process_feedback scripted_create Decoder.loads (rev two_groups)
         (script [Ok not_json; Ok scenario_answer] (Ok [])) = (Ok rs', t2)
    /\ map record_key rs = map record_key rs'.
Proof.
  pose (r := process_feedback scripted_create Decoder.loads two_groups
               (script [Ok empty_object; Ok not_json] (Ok []))).
  pose (r' := process_feedback scripted_create Decoder.loads (rev two_groups)
                (script [Ok not_json; Ok scenario_answer] (Ok []))).
  assert (E : r = (Ok (match fst r with Ok rs => rs | Raise _ => [] end), snd r))
    by (vm_compute; reflexivity).
  assert (E' : r' = (Ok (match fst r' with Ok rs => rs | Raise _ => [] end), snd r'))
    by (vm_compute; reflexivity).
  exists (match fst r with Ok rs => rs | Raise _ => [] end),
         (match fst r' with Ok rs => rs | Raise _ => [] end), (snd r), (snd r').
  split; [exact E|]. split; [exact E'|].
  exact (proj1 (@record_keys_independent_of_row_order Script Script
                  scripted_create scripted_create Decoder.loads Decoder.loads
                  two_groups (rev two_groups) _ _ _ _ _ _
                  (Permutation_rev two_groups) E E')).
Defined.

Lemma join_part (sep x : str) (parts : list str) :
  In x parts -> exists pre post, join sep parts = pre ++ x ++ post.
Proof.
  induction parts as [|p rest IH]; [contradiction|].
  intros [->|Hin].
  - destruct rest as [|q rest].
    + exists [], []. simpl. now rewrite app_nil_r.
    + exists [], (sep ++ join sep (q :: rest)). reflexivity.
  - destruct (IH Hin) as [pre [post E]].
    destruct rest as [|q rest]; [contradiction|].
    exists (p ++ sep ++ pre), post.
    change (join sep (p :: q :: rest)) with (p ++ sep ++ join sep (q :: rest)).
    rewrite E. now rewrite <- !app_assoc.
Qed.

(** X17. Every row of the frame belongs to exactly one group, the group of
    its own key, and its feedback text, behind the bullet ["- "], is part of
    the bullet list of that group. *)
Theorem every_row_in_its_group (df : DataFrame) (r : FeedbackRow) :
  In r df ->
  exists g,
    In (row_key r, g) (groupby df)
    /\ In r g
    /\ (forall kg, In kg (groupby df) -> In r (snd kg) -> kg = (row_key r, g))
    /\ exists pre post,
         feedback_items g = pre ++ (lit "- " ++ feedback_text r) ++ post.
Proof.
  intros Hin.
  set (g := filter (fun x => key_eqb (row_key x) (row_key r)) df).
  assert (Hg : In r g).
  { apply filter_In. split; [exact Hin|]. now apply key_eqb_eq. }
  exists g. split; [|split; [exact Hg|split]].
  - unfold groupby. apply in_map_iff. exists (row_key r). split; [reflexivity|].
    apply group_keys_In. now exists r.
  - intros [k g'] Hkg Hr. unfold groupby in Hkg. apply in_map_iff in Hkg.
    destruct Hkg as [k' [E _]]. inversion E; subst k' g'. cbn [snd] in Hr.
    apply filter_In in Hr. destruct Hr as [_ Hk]. apply key_eqb_eq in Hk.
    subst k. reflexivity.
  - unfold feedback_items, py_str. apply join_part.
    rewrite map_map. apply in_map_iff. exists r. now split.
Qed.

(** Two rows of one group and one of another. *)
Lemma every_row_in_its_group_witness :
  exists g,
    In ((1, 10)%Z, g) (groupby two_groups)
    /\ In (row 1 10 "very clear") g.
Proof.
  destruct (@every_row_in_its_group two_groups (row 1 10 "very clear")
              ltac:(simpl; tauto)) as (g & H1 & H2 & _).
  exists g. split; [exact H1|exact H2].
Defined.

(** X18. The prompts have a bounded size whatever the input: a feedback
    prompt has at most 2518 characters (the 517 of the template before its
    field, 2000 of feedback and the closing line break), a lecture prompt at
    most 5729. *)
Theorem prompt_length_bounded :
  (forall g : DataFrame,
     exists p, feedback_prompt g = Ok p /\ (Z.of_nat (length p) <= 2518)%Z)
  /\ (forall transcript_text : str,
        exists p, lecture_prompt transcript_text = Ok p
                  /\ (Z.of_nat (length p) <= 5729)%Z).
Proof.
  assert (Hf : length FEEDBACK_PROMPT_head = 517) by reflexivity.
  assert (Hl : length LECTURE_PROMPT_head = 728) by reflexivity.
  split.
  - intros g. eexists. split; [apply feedback_prompt_rendered|].
    unfold rendered_feedback_prompt, feedback_budget.
    rewrite !length_app, Hf.
    pose proof (firstn_le_length (Z.to_nat 2000) (feedback_items g)).
    simpl (length nl). lia.
  - intros t. eexists. split; [apply lecture_prompt_rendered|].
    unfold rendered_lecture_prompt, lecture_budget.
    rewrite !length_app, Hl.
    pose proof (firstn_le_length (Z.to_nat 5000) t).
    simpl (length nl). lia.
Qed.

(** ** Showing a critique *)

Section DisplayFacts.

Variable str_lower : str -> str.

Lemma getitem_after_get (d : dict) (k : str) :
  py_bool (dict_get d k) = true -> py_getitem (JDict d) k = Ok (dict_get d k).
Proof.
  unfold dict_get, py_getitem. destruct (dict_lookup d k); [reflexivity|discriminate].
Qed.

Lemma field_tab_dict (n : nat) (d : dict) (k missing : str) (sc : screen) :
  field_tab n (JDict d) k missing sc
  = (Ok tt,
     sc ++ [(Tab n, StWrite (if py_bool (dict_get d k) then dict_get d k
                             else JStr missing))]).
Proof.
  unfold field_tab, dbind at 1, dlift at 1. cbn [py_get].
  destruct (py_bool (dict_get d k)) eqn:Hb; [|reflexivity].
  unfold dbind, dlift. now rewrite (getitem_after_get d k Hb).
Qed.

Lemma factual_tab_dict (d : dict) (sc : screen) :
  factual_tab str_lower (JDict d) sc
  = if py_bool (dict_get d (lit "factual_issues")) then
      match strip_lower str_lower (dict_get d (lit "factual_issues")) with
      | Ok lowered =>
          (Ok tt,
           sc ++ [(Tab 3,
                   if negb (str_in lowered no_issue_texts)
                   then StWarning (dict_get d (lit "factual_issues"))
                   else StSuccess ([9989%N] ++ lit " No factual issues identified"))])
      | Raise e => (Raise e, sc)
      end
    else (Ok tt, sc ++ [(Tab 3, StInfo (lit "No factual issues analysis available."))]).
Proof.
  unfold factual_tab, dbind at 1, dlift at 1. cbn [py_get].
  destruct (py_bool (dict_get d (lit "factual_issues"))) eqn:Hb; [|reflexivity].
  unfold dbind at 1, dlift at 1.
  rewrite (getitem_after_get d (lit "factual_issues") Hb).
  unfold dbind at 1, dlift at 1.
  destruct (strip_lower str_lower (dict_get d (lit "factual_issues"))) as [lowered|e];
    [|reflexivity].
  destruct (negb (str_in lowered no_issue_texts)); [|reflexivity].
  reflexivity.
Qed.

(** The display of an object: everything up to the third tab is placed
    without fail; the third tab decides, and the fourth follows it. *)
Lemma display_dict (d : dict) (sc : screen) :
  display_lecture_critique str_lower (JDict d) sc
  = match
      factual_tab str_lower (JDict d)
        (sc ++ [(MainPage, StSubheader ([128202%N] ++ lit " Lecture Analysis Results"))]
            ++ (if py_bool (dict_get d (lit "summary"))
                then [ (MainPage, StSubheader ([128214%N] ++ lit " Overall Summary"));
                       (MainPage, StWrite (dict_get d (lit "summary"))) ]
                else [])
            ++ [ (MainPage, StTabs tab_labels);
                 (Tab 1, StWrite (if py_bool (dict_get d (lit "clarity_structure"))
                                  then dict_get d (lit "clarity_structure")
                                  else JStr (lit "No clarity and structure analysis available.")));
                 (Tab 2, StWrite (if py_bool (dict_get d (lit "missing_content"))
                                  then dict_get d (lit "missing_content")
                                  else JStr (lit "No missing content identified."))) ])
    with
    | (Ok _, sc') =>
        (Ok tt,
         sc' ++ [(Tab 4, StWrite (if py_bool (dict_get d (lit "pedagogical_suggestions"))
                                  then dict_get d (lit "pedagogical_suggestions")
                                  else JStr (lit "No pedagogical suggestions available.")))])
    | (Raise e, sc') => (Raise e, sc')
    end.
Proof.
  unfold display_lecture_critique.
  unfold dbind at 1, place at 1.
  unfold dbind at 1, dlift at 1. cbn [py_get].
  unfold dbind at 1.
  assert (E : (if py_bool (dict_get d (lit "summary"))
               then dbind (place MainPage (StSubheader ([128214%N] ++ lit " Overall Summary")))
                      (fun _ => dbind (dlift (py_getitem (JDict d) (lit "summary")))
                                  (fun v => place MainPage (StWrite v)))
               else dret tt)
                (sc ++ [(MainPage, StSubheader ([128202%N] ++ lit " Lecture Analysis Results"))])
              = (Ok tt,
                 (sc ++ [(MainPage, StSubheader ([128202%N] ++ lit " Lecture Analysis Results"))])
                 ++ (if py_bool (dict_get d (lit "summary"))
                     then [ (MainPage, StSubheader ([128214%N] ++ lit " Overall Summary"));
                            (MainPage, StWrite (dict_get d (lit "summary"))) ]
                     else []))).
  { destruct (py_bool (dict_get d (lit "summary"))) eqn:Hb.
    - unfold dbind, place, dlift. rewrite (getitem_after_get d (lit "summary") Hb).
      now rewrite <- !app_assoc.
    - unfold dret. now rewrite app_nil_r. }
  rewrite E.
  unfold dbind at 1, place at 1.
  unfold dbind at 1. rewrite field_tab_dict.
  unfold dbind at 1. rewrite field_tab_dict.
  unfold dbind at 1.
  rewrite <- !app_assoc. cbn [app].
  destruct (factual_tab str_lower (JDict d) _) as [[u|e] sc'].
  - rewrite field_tab_dict. reflexivity.
  - reflexivity.
Qed.

(** X19. A critique that is not an object cannot be shown: after the
    title, the lookup of its summary raises the AttributeError of its
    missing [get], and nothing else is placed. *)
Theorem display_raises_on_non_object (v : json) (sc : screen) :
  (forall d, v <> JDict d) ->
  display_lecture_critique str_lower v sc
  = (Raise (AttributeError v (lit "get")),
     sc ++ [(MainPage, StSubheader ([128202%N] ++ lit " Lecture Analysis Results"))]).
Proof.
  intros H. unfold display_lecture_critique, dbind at 1, place at 1.
  unfold dbind at 1, dlift at 1.
  destruct v as [| | | | | |d]; try reflexivity. destruct (H d eq_refl).
Qed.

(** X20. An object is shown without an exception exactly when its
    factual_issues field is false (absent, null, empty, zero) or is a
    string, whatever its other fields hold.  When the field is true and not
    a string, for instance a list of issues, the display raises the
    AttributeError of its missing [strip], after the first two tabs were
    filled. *)
Theorem display_dict_raises_iff (d : dict) (sc : screen) :
  ((exists sc', display_lecture_critique str_lower (JDict d) sc = (Ok tt, sc'))
   <-> (py_bool (dict_get d (lit "factual_issues")) = false
        \/ exists t, dict_get d (lit "factual_issues") = JStr t))
  /\ (py_bool (dict_get d (lit "factual_issues")) = true ->
      (forall t, dict_get d (lit "factual_issues") <> JStr t) ->
      exists sc',
        display_lecture_critique str_lower (JDict d) sc
        = (Raise (AttributeError (dict_get d (lit "factual_issues")) (lit "strip")), sc')
        /\ In (Tab 2, StWrite (if py_bool (dict_get d (lit "missing_content"))
                               then dict_get d (lit "missing_content")
                               else JStr (lit "No missing content identified."))) sc').
Proof.
  rewrite display_dict, factual_tab_dict.
  destruct (py_bool (dict_get d (lit "factual_issues"))) eqn:Hb.
  - destruct (dict_get d (lit "factual_issues")) as [| |z|f|t|l|d'] eqn:Hf;
      cbn [strip_lower];
      try (split;
           [ split;
             [ intros [sc' H]; discriminate H
             | intros [H|[t H]]; discriminate H ]
           | intros _ _; eexists; split; [reflexivity|];
             apply in_or_app; right; apply in_or_app; right;
             apply in_or_app; right; simpl; tauto ]).
    split.
    + split; [intros _; right; now exists t|intros _; eexists; reflexivity].
    + intros _ H. destruct (H t eq_refl).
  - split.
    + split; [intros _; now left|intros _; eexists; reflexivity].
    + discriminate.
Qed.

(** X21. What the user sees after a parse failure: the critique that
    [analyze_transcript] then returns is shown without an exception as the
    title, the summary section with the fixed text, and the four tabs with
    their stock sentences.  The message of the exception, kept under
    [error], is not shown by the display. *)
Theorem display_after_parse_failure
    (World : Type)
    (ChatCompletion_create : ChatRequest -> World -> outcome ChatResponse * World)
    (json_loads : str -> outcome json)
    (transcript_text raw : str) (e : exn) (s : state World) (w1 : World) :
  call_llm ChatCompletion_create (rendered_lecture_prompt transcript_text) (world s)
  = (Ok raw, w1) ->
  json_loads (clean_response raw) = Raise e ->
  exists critique s',
    analyze_transcript ChatCompletion_create json_loads transcript_text s
    = (Ok critique, s')
    /\ display_lecture_critique str_lower critique []
       = (Ok tt,
          [ (MainPage, StSubheader ([128202%N] ++ lit " Lecture Analysis Results"));
            (MainPage, StSubheader ([128214%N] ++ lit " Overall Summary"));
            (MainPage, StWrite (JStr (lit "Error parsing response")));
            (MainPage, StTabs tab_labels);
            (Tab 1, StWrite (JStr (lit "No clarity and structure analysis available.")));
            (Tab 2, StWrite (JStr (lit "No missing content identified.")));
            (Tab 3, StInfo (lit "No factual issues analysis available."));
            (Tab 4, StWrite (JStr (lit "No pedagogical suggestions available."))) ]).
Proof.
  intros Hcall Hfail.
  rewrite (analyze_transcript_answered ChatCompletion_create json_loads
             transcript_text s Hcall).
  rewrite (parse_critique_raise json_loads raw _ Hfail).
  eexists. eexists. split; [reflexivity|].
  unfold critique_fallback. rewrite display_dict, factual_tab_dict. reflexivity.
Qed.

(** X22. An empty factual_issues text and a blank one are shown
    differently.  The empty string is false, and the tab says that no
    analysis is available; a text of whitespace only is true, is stripped to
    the empty string, and the tab reports that no factual issues were
    identified.  (The lower case of the empty string is taken to be the
    empty string.) *)
Theorem blank_factual_issues (d : dict) (t : str) (sc : screen) :
  str_lower [] = [] ->
  dict_lookup d (lit "factual_issues") = Some (JStr t) ->
  all_space t = true ->
  exists sc',
    display_lecture_critique str_lower (JDict d) sc = (Ok tt, sc')
    /\ In (Tab 3,
           if truthy t
           then StSuccess ([9989%N] ++ lit " No factual issues identified")
           else StInfo (lit "No factual issues analysis available."))
          sc'.
Proof.
  intros Hlow Hd Hblank.
  rewrite display_dict, factual_tab_dict.
  assert (Hf : dict_get d (lit "factual_issues") = JStr t)
    by (unfold dict_get; now rewrite Hd).
  rewrite Hf. cbn [py_bool strip_lower].
  destruct (truthy t) eqn:Ht.
  - assert (Hs : strip t = []).
    { apply strip_blank in Hblank. destruct (strip t); [reflexivity|discriminate]. }
    rewrite Hs, Hlow. cbn.
    eexists. split; [reflexivity|].
    apply in_or_app. left. apply in_or_app. right. simpl. tauto.
  - eexists. split; [reflexivity|].
    apply in_or_app. left. apply in_or_app. right. simpl. tauto.
Qed.

(** X23. An answer that decodes to something other than an object, a list
    or a number for instance, is returned by [analyze_transcript] as it is,
    and nothing is written on the page; showing it then raises the
    AttributeError of its missing [get] after the title.  The failure
    surfaces in the display, not in the analysis. *)
Theorem non_object_critique_fails_in_display
    (World : Type)
    (ChatCompletion_create : ChatRequest -> World -> outcome ChatResponse * World)
    (json_loads : str -> outcome json)
    (transcript_text raw : str) (v : json) (s : state World) (w1 : World) :
  call_llm ChatCompletion_create (rendered_lecture_prompt transcript_text) (world s)
  = (Ok raw, w1) ->
  json_loads (clean_response raw) = Ok v ->
  (forall d, v <> JDict d) ->
  analyze_transcript ChatCompletion_create json_loads transcript_text s
  = (Ok v, {| world := w1; page := page s |})
  /\ display_lecture_critique str_lower v []
     = (Raise (AttributeError v (lit "get")),
        [(MainPage, StSubheader ([128202%N] ++ lit " Lecture Analysis Results"))]).
Proof.
  intros Hcall Hv Hn. split.
  - rewrite (analyze_transcript_answered ChatCompletion_create json_loads
               transcript_text s Hcall).
    apply parse_critique_ok. exact Hv.
  - unfold display_lecture_critique, dbind at 1, place at 1.
    unfold dbind at 1, dlift at 1.
    destruct v as [| | | | | |d0]; try reflexivity. destruct (Hn d0 eq_refl).
Qed.

End DisplayFacts.

(** An answer that is a list of two numbers. *)
Lemma non_object_critique_fails_in_display_witness :
  analyze_transcript scripted_create Decoder.loads (lit "a lecture")
    (script [Ok (lit "[1, 2]")] (Ok []))
  = (Ok (JList [JInt 1; JInt 2]), script [] (Ok []))
  /\ display_lecture_critique ascii_lower (JList [JInt 1; JInt 2]) []
     = (Raise (AttributeError (JList [JInt 1; JInt 2]) (lit "get")),
        [(MainPage, StSubheader ([128202%N] ++ lit " Lecture Analysis Results"))]).
Proof.
  apply (@non_object_critique_fails_in_display ascii_lower Script scripted_create
           Decoder.loads (lit "a lecture") (lit "[1, 2]") (JList [JInt 1; JInt 2])
           (script [Ok (lit "[1, 2]")] (Ok []))
           {| completions := []; captions := Ok [] |}).
  - reflexivity.
  - vm_compute. reflexivity.
  - discriminate.
Defined.

(** A critique that is a list. *)
Lemma display_raises_on_non_object_witness :
  display_lecture_critique ascii_lower (JList [JInt 1; JInt 2]) []
  = (Raise (AttributeError (JList [JInt 1; JInt 2]) (lit "get")),
     [(MainPage, StSubheader ([128202%N] ++ lit " Lecture Analysis Results"))]).
Proof.
  apply (@display_raises_on_non_object ascii_lower (JList [JInt 1; JInt 2]) []).
  discriminate.
Defined.

(** A critique whose factual issues are a list. *)
Lemma display_dict_raises_iff_witness :
  exists sc',
    display_lecture_critique ascii_lower
      (JDict [(lit "factual_issues", JList [JStr (lit "the year is wrong")])]) []
    = (Raise (AttributeError (JList [JStr (lit "the year is wrong")]) (lit "strip")), sc').
Proof.
  destruct (proj2 (@display_dict_raises_iff ascii_lower
                     [(lit "factual_issues", JList [JStr (lit "the year is wrong")])] [])
              eq_refl ltac:(discriminate))
    as (sc' & E & _).
  exists sc'. exact E.
Defined.

(** The display after an answer in plain words. *)
Lemma display_after_parse_failure_witness :
  exists critique s' sc',
    analyze_transcript scripted_create Decoder.loads (lit "a lecture")
      (script [Ok not_json] (Ok [])) = (Ok critique, s')
    /\ display_lecture_critique ascii_lower critique [] = (Ok tt, sc')
    /\ length sc' = 8.
Proof.
  destruct (@display_after_parse_failure ascii_lower Script scripted_create Decoder.loads
              (lit "a lecture") not_json
              (Decoder.JSONDecodeError (lit "Expecting value") not_json 0)
              (script [Ok not_json] (Ok []))
              {| completions := []; captions := Ok [] |})
    as (critique & s' & E & Dsp).
  - reflexivity.
  - vm_compute. reflexivity.
  - exists critique, s'. eexists. split; [exact E|]. split; [exact Dsp|reflexivity].
Defined.

(** A critique whose factual issues are two spaces. *)
Lemma blank_factual_issues_witness :
  exists sc',
    display_lecture_critique ascii_lower
      (JDict [(lit "factual_issues", JStr (lit "  "))]) [] = (Ok tt, sc')
    /\ In (Tab 3, StSuccess ([9989%N] ++ lit " No factual issues identified")) sc'.
Proof.
  exact (@blank_factual_issues ascii_lower
           [(lit "factual_issues", JStr (lit "  "))] (lit "  ") []
           eq_refl eq_refl eq_refl).
Defined.
